(** * Time tracker (React Native, App.js): the log store, export and configuration

    A shallow embedding of the application logic of [App.js].  The file
    holds three variants of the application one after the other; they share
    the storage helpers, the Home screen and the Settings screen, and differ
    in the export function and in the Logs screen (only the second variant
    can edit an entry).

    - JavaScript strings are sequences of UTF-16 code units.
    - [AsyncStorage] is a finite map from keys to strings; a call can reject.
    - [async] functions are sequential programs in a state-and-exception
      monad over the state of the React component and the outside world.
    - Built-ins and packages the application calls ([JSON], [js-yaml],
      [Date], [Platform], the sharing and file APIs) are an interface,
      [Runtime], that every definition and theorem is parametric in. *)

From stdpp Require Import base option list strings gmap.
From Stdlib Require Import ZArith NArith Ascii String Lia Sorted.

Set Warnings "-register-all".
Local Open Scope Z_scope.

(** ** JavaScript strings *)

Module JS.

(** A string value: its UTF-16 code units. *)
Definition str := list N.

(** An ASCII literal as a JavaScript string. *)
Definition lit (s : string) : str :=
  List.map N_of_ascii (list_ascii_of_string s).

(** [WhiteSpace] and [LineTerminator] code points of ECMAScript, the ones
    [String.prototype.trim] removes. All of them are single code units. *)
Definition isWhiteSpace (c : N) : bool :=
  ((9 <=? c) && (c <=? 13) || (c =? 32) || (c =? 160) || (c =? 5760)
   || (8192 <=? c) && (c <=? 8202) || (c =? 8232) || (c =? 8233)
   || (c =? 8239) || (c =? 8287) || (c =? 12288) || (c =? 65279))%N.

Fixpoint trimStart (s : str) : str :=
  match s with
  | [] => []
  | c :: s' => if isWhiteSpace c then trimStart s' else s
  end.

Definition trimEnd (s : str) : str := rev (trimStart (rev s)).

(** [s.trim()] *)
Definition trim (s : str) : str := trimEnd (trimStart s).

(** [s.split(sep)] for a separator of one code unit: never empty. *)
Fixpoint split (sep : N) (s : str) : list str :=
  match s with
  | [] => [[]]
  | c :: s' =>
      if (c =? sep)%N then [] :: split sep s'
      else match split sep s' with
           | piece :: pieces => (c :: piece) :: pieces
           | [] => [[c]]
           end
  end.

(** [a.join(sep)] on an array of strings. *)
Fixpoint join (sep : str) (a : list str) : str :=
  match a with
  | [] => []
  | [x] => x
  | x :: rest => x ++ sep ++ join sep rest
  end.

(** [s.replace(/c/g, d)] for single code units [c] and [d]. *)
Definition replaceAll (c d : N) (s : str) : str :=
  List.map (fun x => if (x =? c)%N then d else x) s.

(** Truthiness of a string: the empty one is the only falsy one. *)
Definition truthy (s : str) : bool :=
  match s with [] => false | _ => true end.

Definition comma : N := 44.
Definition colon : N := 58.
Definition underscore : N := 95.

End JS.

(** ** Values *)

(** What [yaml.load] can return, and the configuration the screens hold. *)
Inductive jsval :=
| JUndefined
| JNull
| JBool (b : bool)
| JNum (n : Z)
| JStr (s : JS.str)
| JArr (items : list jsval)
| JObj (props : list (JS.str * jsval)).

(** [o.k] on a value: [TypeError] on [undefined] and [null] is the caller's
    business; a missing property reads as [undefined]. *)
Fixpoint getProp (k : JS.str) (props : list (JS.str * jsval)) : jsval :=
  match props with
  | [] => JUndefined
  | (k', v) :: rest => if decide (k' = k) then v else getProp k rest
  end.

Definition valTruthy (v : jsval) : bool :=
  match v with
  | JUndefined | JNull => false
  | JBool b => b
  | JNum n => negb (n =? 0)
  | JStr s => JS.truthy s
  | JArr _ | JObj _ => true
  end.

(** One entry of the log. [comments] may be missing on an entry read back
    from storage: the code tests for it before pushing a comment. *)
Record LogRecord := mkLog {
  activity : JS.str;
  timestamp : JS.str;
  comments : option (list JS.str);
}.

Definition set_activity (a : JS.str) (r : LogRecord) : LogRecord :=
  mkLog a (timestamp r) (comments r).

Definition set_comments (c : list JS.str) (r : LogRecord) : LogRecord :=
  mkLog (activity r) (timestamp r) (Some c).

(** ** Constants of App.js *)

Definition CONFIG_KEY : string := "activityConfig".
Definition THEME_KEY : string := "appTheme".
Definition LOGS_KEY : string := "@activity_logs".
Definition DEFAULT_THEME : JS.str := JS.lit "light".
Definition DEFAULT_CONFIG : jsval :=
  JObj [(JS.lit "activities",
         JArr [JStr (JS.lit "Work"); JStr (JS.lit "Break"); JStr (JS.lit "Exercise")])].

(** ** The outside world *)

Inductive Platform := web | android | ios.

(** What is handed to [Share.share]. *)
Inductive ShareContent :=
| ShareUrl (url : JS.str)
| ShareMessage (message : JS.str).

(** Built-ins and packages. A parser returns [None] where the JavaScript
    function throws; a sink returns [false] where it throws or rejects.
    [JSON_parse] is [JSON.parse] on the text of a log: the application uses
    what it returns as an array of entries without looking, and so does the
    model. [JSON_stringify_indent] is [JSON.stringify(logs, null, 2)]. *)
Class Runtime := {
  Platform_OS : Platform;
  JSON_stringify : list LogRecord -> JS.str;
  JSON_stringify_indent : list LogRecord -> JS.str;
  JSON_parse : JS.str -> option (list LogRecord);
  yaml_load : JS.str -> option jsval;
  yaml_dump : jsval -> JS.str;
  toISOString : Z -> JS.str;
  documentDirectory : JS.str;
  download : JS.str -> JS.str -> bool;
  writeAsStringAsync : JS.str -> JS.str -> bool;
  Share_share : ShareContent -> bool;
}.

(** [AsyncStorage] with the condition of the device: which calls reject. *)
Record World := mkWorld {
  storage : gmap string JS.str;
  getItem_rejects : bool;
  setItem_rejects : bool;
  removeItem_rejects : bool;
  console : list string;
  alerts : list (string * option string);
}.

Definition with_storage (m : gmap string JS.str) (w : World) : World :=
  mkWorld m (getItem_rejects w) (setItem_rejects w) (removeItem_rejects w)
          (console w) (alerts w).

Definition with_console (c : list string) (w : World) : World :=
  mkWorld (storage w) (getItem_rejects w) (setItem_rejects w)
          (removeItem_rejects w) c (alerts w).

Definition with_alerts (a : list (string * option string)) (w : World) : World :=
  mkWorld (storage w) (getItem_rejects w) (setItem_rejects w)
          (removeItem_rejects w) (console w) a.

(** ** Sequential programs over a component state and the world *)

Inductive error :=
| StorageError
| SyntaxError
| TypeError
| YAMLException
| SinkError.

Inductive result (A : Type) :=
| Ok (a : A)
| Throw (e : error).
Arguments Ok {A} a.
Arguments Throw {A} e.

(** A program: from the component state [S] and the world to an outcome and
    the state and world it leaves. What was done before a throw stays done. *)
Definition M (S A : Type) : Type := S -> World -> result A * S * World.

Definition ret {S A} (a : A) : M S A := fun s w => (Ok a, s, w).

Definition throw {S A} (e : error) : M S A := fun s w => (Throw e, s, w).

Definition bind {S A B} (m : M S A) (k : A -> M S B) : M S B :=
  fun s w =>
    match m s w with
    | (Ok a, s', w') => k a s' w'
    | (Throw e, s', w') => (Throw e, s', w')
    end.

(** [try { m } catch (error) { h error }] *)
Definition try_catch {S A} (m : M S A) (h : error -> M S A) : M S A :=
  fun s w =>
    match m s w with
    | (Ok a, s', w') => (Ok a, s', w')
    | (Throw e, s', w') => h e s' w'
    end.

Notation "'let!' x := m 'in' k" := (bind m (fun x => k))
  (at level 10, x name, m at level 100, k at level 200,
   format "'[v' 'let!'  x  :=  m  'in' '/' k ']'").
Notation "m >> k" := (bind m (fun _ => k))
  (at level 90, right associativity).

Definition get {S} : M S S := fun s w => (Ok s, s, w).
Definition modify {S} (f : S -> S) : M S unit := fun s w => (Ok tt, f s, w).

(** *** AsyncStorage *)

Definition AsyncStorage_getItem {S} (k : string) : M S (option JS.str) :=
  fun s w =>
    if getItem_rejects w then (Throw StorageError, s, w)
    else (Ok (storage w !! k), s, w).

Definition AsyncStorage_setItem {S} (k : string) (v : JS.str) : M S unit :=
  fun s w =>
    if setItem_rejects w then (Throw StorageError, s, w)
    else (Ok tt, s, with_storage (<[k := v]> (storage w)) w).

Definition AsyncStorage_removeItem {S} (k : string) : M S unit :=
  fun s w =>
    if removeItem_rejects w then (Throw StorageError, s, w)
    else (Ok tt, s, with_storage (delete k (storage w)) w).

(** *** console.error and Alert.alert *)

Definition console_error {S} (msg : string) : M S unit :=
  fun s w => (Ok tt, s, with_console (console w ++ [msg]) w).

Definition Alert_alert {S} (title message : string) : M S unit :=
  fun s w => (Ok tt, s, with_alerts (alerts w ++ [(title, Some message)]) w).

(** [Alert.alert(title)], without a message. *)
Definition Alert_title {S} (title : string) : M S unit :=
  fun s w => (Ok tt, s, with_alerts (alerts w ++ [(title, None)]) w).

(** A parser or a sink of the runtime as a program. *)
Definition parsed {S A} (e : error) (o : option A) : M S A :=
  match o with
  | Some a => ret a
  | None => throw e
  end.

Definition delivered {S} (ok : bool) : M S unit :=
  if ok then ret tt else throw SinkError.

(** ** Storage helpers (the same in the three variants) *)

Section Storage.
Context `{Runtime} {S : Type}.

Definition loadLogsFromStorage : M S (list LogRecord) :=
  try_catch
    (let! jsonValue := AsyncStorage_getItem LOGS_KEY in
     match jsonValue with
     | Some text => parsed SyntaxError (JSON_parse text)
     | None => ret []
     end)
    (fun _ => console_error "Error reading logs:" >> ret []).

Definition saveLogsToStorage (logs : list LogRecord) : M S unit :=
  try_catch
    (let jsonValue := JSON_stringify logs in
     AsyncStorage_setItem LOGS_KEY jsonValue)
    (fun _ => console_error "Error saving logs:").

End Storage.

(** ** Home screen *)

Module Home.

Record state := mk {
  logs : list LogRecord;
  commentModalVisible : bool;
  commentText : JS.str;
}.

Definition setLogs (l : list LogRecord) (s : state) : state :=
  mk l (commentModalVisible s) (commentText s).
Definition setCommentModalVisible (b : bool) (s : state) : state :=
  mk (logs s) b (commentText s).
Definition setCommentText (t : JS.str) (s : state) : state :=
  mk (logs s) (commentModalVisible s) t.

(** [useState([])], [useState(false)], [useState('')] *)
Definition initial : state := mk [] false [].

(** [if (!r.comments) r.comments = []; r.comments.push(text)].
    The entry is changed in place; the copy [[...logs]] is shallow, and the
    array handed to [setLogs] holds the same entries, so the state after
    the call is the one computed here. *)
Definition pushComment (text : JS.str) (r : LogRecord) : LogRecord :=
  match comments r with
  | Some cs => set_comments (cs ++ [text]) r
  | None => set_comments [text] r
  end.

Section Handlers.
Context `{Runtime}.

(** The effect on [reloadFlag]: reload the logs from storage. *)
Definition reload : M state unit :=
  let! loadedLogs := loadLogsFromStorage in
  modify (setLogs loadedLogs).

(** [now] is the instant [new Date()] reads. *)
Definition recordActivity (activity : JS.str) (now : Z) : M state unit :=
  let! s := get in
  let newEntry := mkLog activity (toISOString now) (Some []) in
  let updatedLogs := logs s ++ [newEntry] in
  saveLogsToStorage updatedLogs >>
  modify (setLogs updatedLogs).

(** [title] is ['No logs available'] in the first and third variant and
    ['No logs'] in the second, which also resets the height of the input
    field, a matter of layout that the state here leaves out. *)
Definition addCommentWith (title : string) : M state unit :=
  let! s := get in
  if (List.length (logs s) =? 0)%nat then
    Alert_alert title "Please log an activity first."
  else
    let lastIndex := (List.length (logs s) - 1)%nat in
    let updatedLogs := alter (pushComment (commentText s)) lastIndex (logs s) in
    saveLogsToStorage updatedLogs >>
    modify (setLogs updatedLogs) >>
    modify (setCommentText []) >>
    modify (setCommentModalVisible false).

Definition addComment : M state unit := addCommentWith "No logs available".

End Handlers.

End Home.

(** ** Logs screen of the second variant: entries can be edited *)

Module Logs.

Record state := mk {
  logs : list LogRecord;
  editModalVisible : bool;
  currentEditingIndex : option Z;
  editedActivity : JS.str;
  editedComments : JS.str;
}.

Definition setLogs (l : list LogRecord) (s : state) : state :=
  mk l (editModalVisible s) (currentEditingIndex s) (editedActivity s)
     (editedComments s).
Definition setEditModalVisible (b : bool) (s : state) : state :=
  mk (logs s) b (currentEditingIndex s) (editedActivity s) (editedComments s).
Definition setCurrentEditingIndex (i : Z) (s : state) : state :=
  mk (logs s) (editModalVisible s) (Some i) (editedActivity s)
     (editedComments s).
Definition setEditedActivity (a : JS.str) (s : state) : state :=
  mk (logs s) (editModalVisible s) (currentEditingIndex s) a
     (editedComments s).
Definition setEditedComments (c : JS.str) (s : state) : state :=
  mk (logs s) (editModalVisible s) (currentEditingIndex s)
     (editedActivity s) c.

Definition initial : state := mk [] false None [] [].

(** [data={[...logs].reverse()}]: the most recent entry first. *)
Definition displayed (s : state) : list LogRecord := rev (logs s).

(** [a[i]] for a number [i] that is an integer: [undefined] out of range. *)
Definition at_index {A} (a : list A) (i : Z) : option A :=
  if i <? 0 then None else a !! Z.to_nat i.

(** [editedComments.split(",").map((c) => c.trim()).filter((c) => c)] *)
Definition splitComments (editedComments : JS.str) : list JS.str :=
  List.filter JS.truthy (List.map JS.trim (JS.split JS.comma editedComments)).

Definition openEditModal (displayedIndex : Z) (item : LogRecord) : M state unit :=
  let! s := get in
  let originalIndex := Z.of_nat (List.length (logs s)) - 1 - displayedIndex in
  modify (setCurrentEditingIndex originalIndex) >>
  modify (setEditedActivity (activity item)) >>
  modify (setEditedComments
            match comments item with
            | Some cs => JS.join (JS.lit ", ") cs
            | None => []
            end) >>
  modify (setEditModalVisible true).

(** A press on the row [index] of the list: [renderItem] gives the row its
    index and its item in the displayed order. *)
Definition pressRow (index : nat) : M state unit :=
  let! s := get in
  match displayed s !! index with
  | Some item => openEditModal (Z.of_nat index) item
  | None => ret tt
  end.

Section Handlers.
Context `{Runtime}.

(** The focus effect: load the logs in their stored order. *)
Definition focus : M state unit :=
  let! loadedLogs := loadLogsFromStorage in
  modify (setLogs loadedLogs).

(** An assignment to a property of [updatedLogs[i]] throws a [TypeError]
    when there is no such entry. *)
Definition saveEditedLog : M state unit :=
  let! s := get in
  match currentEditingIndex s with
  | None => ret tt
  | Some i =>
      match at_index (logs s) i with
      | None => throw TypeError
      | Some entry =>
          let edited :=
            set_comments (splitComments (editedComments s))
                         (set_activity (editedActivity s) entry) in
          let updatedLogs := <[Z.to_nat i := edited]> (logs s) in
          saveLogsToStorage updatedLogs >>
          modify (setLogs updatedLogs) >>
          modify (setEditModalVisible false)
      end
  end.

End Handlers.

End Logs.

(** ** The App component and the Settings screen *)

Inductive Screen := HomeRoute | LogsRoute | SettingsRoute.

Module App.

Record state := mk {
  config : jsval;
  theme : JS.str;
  reloadFlag : bool;
  route : Screen;
}.

Definition setConfig (c : jsval) (s : state) : state :=
  mk c (theme s) (reloadFlag s) (route s).
Definition setTheme (t : JS.str) (s : state) : state :=
  mk (config s) t (reloadFlag s) (route s).
Definition setReloadFlag (b : bool) (s : state) : state :=
  mk (config s) (theme s) b (route s).
Definition navigate (r : Screen) (s : state) : state :=
  mk (config s) (theme s) (reloadFlag s) r.

(** [useState(DEFAULT_CONFIG)], [useState(DEFAULT_THEME)],
    [useState(false)], [initialRouteName="Home"] *)
Definition initial : state := mk DEFAULT_CONFIG DEFAULT_THEME false HomeRoute.

(** [() => setReloadFlag(!reloadFlag)], with the [reloadFlag] of the render
    that made the closure. *)
Definition refreshHome (reloadFlag : bool) : M state unit :=
  modify (setReloadFlag (negb reloadFlag)).

Section Handlers.
Context `{Runtime}.

Definition loadConfig : M state unit :=
  try_catch
    (let! storedConfig := AsyncStorage_getItem CONFIG_KEY in
     match storedConfig with
     | Some text =>
         if JS.truthy text then
           let! c := parsed YAMLException (yaml_load text) in
           modify (setConfig c)
         else ret tt
     | None => ret tt
     end)
    (fun _ => console_error "Failed to load configuration").

Definition loadTheme : M state unit :=
  try_catch
    (let! storedTheme := AsyncStorage_getItem THEME_KEY in
     match storedTheme with
     | Some t => if JS.truthy t then modify (setTheme t) else ret tt
     | None => ret tt
     end)
    (fun _ => console_error "Failed to load theme").

(** The effect of the first render. *)
Definition startup : M state unit := loadConfig >> loadTheme.

End Handlers.

End App.

Module Settings.

Section Handlers.
Context `{Runtime}.

(** The effect on [config]: the text shown in the editor. *)
Definition shownText (config : jsval) : JS.str := yaml_dump config.

(** [yamlText] and [selectedTheme] are the state of the screen. *)
Definition saveSettings (yamlText selectedTheme : JS.str) : M App.state unit :=
  let! s := get in
  try_catch
    (let! newConfig := parsed YAMLException (yaml_load yamlText) in
     modify (App.setConfig newConfig) >>
     AsyncStorage_setItem CONFIG_KEY yamlText >>
     AsyncStorage_setItem THEME_KEY selectedTheme >>
     modify (App.setTheme selectedTheme) >>
     App.refreshHome (App.reloadFlag s) >>
     modify (App.navigate HomeRoute))
    (fun _ => Alert_alert "Error" "Invalid YAML configuration.").

End Handlers.

End Settings.

(** ** The activity buttons of the Home screen *)

(** [config.activities]: a [TypeError] on [undefined] and [null],
    [undefined] on a value without the property. *)
Definition activitiesOf (config : jsval) : result jsval :=
  match config with
  | JUndefined | JNull => Throw TypeError
  | JObj props => Ok (getProp (JS.lit "activities") props)
  | _ => Ok JUndefined
  end.

(** [a.map(...)]: only an array has it. *)
Definition mapButtons (a : jsval) : result (list jsval) :=
  match a with
  | JArr items => Ok items
  | _ => Throw TypeError
  end.

(** ** Export: the three variants *)

(** What [exportLogsFunction] of the second variant leaves behind: on a
    phone it sets a timer that opens the 'Delete Logs' dialog. *)
Inductive pending := NoDialog | DeleteLogsDialog.

Inductive button := No | Yes.

Module Variant1.

Section ExportFunction.
Context `{Runtime} {S : Type}.

Definition exportLogsFunction (now : Z) (logs : list LogRecord)
    (clearLogsCallback : M S unit) : M S unit :=
  let logString := JSON_stringify_indent logs in
  try_catch
    (let now := JS.replaceAll JS.colon JS.underscore (toISOString now) in
     let fileName := JS.lit "activity_logs_" ++ now ++ JS.lit ".json" in
     match Platform_OS with
     | web => delivered (download logString fileName)
     | _ =>
         let fileUri := documentDirectory ++ fileName in
         delivered (writeAsStringAsync fileUri logString) >>
         delivered (Share_share (ShareUrl fileUri))
     end >>
     AsyncStorage_removeItem LOGS_KEY >>
     clearLogsCallback >>
     Alert_alert "Success" "Logs exported and cleared.")
    (fun _ =>
       console_error "Error exporting logs:" >>
       Alert_alert "Export Error" "Failed to export logs.").

End ExportFunction.

Section Screens.
Context `{Runtime}.

Definition handleExportLogs (now : Z) : M App.state unit :=
  let! s := get in
  let! logs := loadLogsFromStorage in
  exportLogsFunction now logs (App.refreshHome (App.reloadFlag s)).

(** [config.activities && config.activities.map(...)] *)
Definition activityButtons (config : jsval) : result (list jsval) :=
  match activitiesOf config with
  | Throw e => Throw e
  | Ok a => if valTruthy a then mapButtons a else Ok []
  end.

Definition addComment : M Home.state unit := Home.addComment.

End Screens.

End Variant1.

Module Variant2.

Section ExportFunction.
Context `{Runtime} {S : Type}.

Definition exportLogsFunction (now : Z) (logs : list LogRecord)
    (clearLogsCallback : M S unit) : M S pending :=
  let logString := JSON_stringify_indent logs in
  try_catch
    (let now := JS.replaceAll JS.colon JS.underscore (toISOString now) in
     let fileName := JS.lit "activity_logs_" ++ now ++ JS.lit ".json" in
     match Platform_OS with
     | web =>
         delivered (download logString fileName) >>
         AsyncStorage_removeItem LOGS_KEY >>
         clearLogsCallback >>
         ret NoDialog
     | android =>
         delivered (Share_share (ShareMessage logString)) >>
         ret DeleteLogsDialog
     | ios =>
         let fileUri := documentDirectory ++ fileName in
         delivered (writeAsStringAsync fileUri logString) >>
         delivered (Share_share (ShareUrl fileUri)) >>
         ret DeleteLogsDialog
     end)
    (fun _ =>
       console_error "Error exporting logs:" >>
       Alert_alert "Export Error" "Failed to export logs." >>
       ret NoDialog).

(** The dialog the timer opens, and the button the user presses. *)
Definition deleteLogsDialog (pressed : button)
    (clearLogsCallback : M S unit) : M S unit :=
  Alert_alert "Delete Logs" "Click yes if you have exported the logs." >>
  match pressed with
  | No => ret tt
  | Yes =>
      try_catch
        (AsyncStorage_removeItem LOGS_KEY >>
         clearLogsCallback >>
         Alert_title "Logs cleared.")
        (fun _ =>
           console_error "Error clearing logs:" >>
           Alert_alert "Error" "Failed to clear logs.")
  end.

End ExportFunction.

Section Screens.
Context `{Runtime}.

Definition handleExportLogs (now : Z) : M App.state pending :=
  let! s := get in
  let! logs := loadLogsFromStorage in
  exportLogsFunction now logs (App.refreshHome (App.reloadFlag s)).

(** The export with the answer the user gives when the dialog opens. *)
Definition exportAndAnswer (now : Z) (pressed : button) : M App.state unit :=
  let! s := get in
  let! p := handleExportLogs now in
  match p with
  | NoDialog => ret tt
  | DeleteLogsDialog =>
      deleteLogsDialog pressed (App.refreshHome (App.reloadFlag s))
  end.

(** [config.activities.map(...)] *)
Definition activityButtons (config : jsval) : result (list jsval) :=
  match activitiesOf config with
  | Throw e => Throw e
  | Ok a => mapButtons a
  end.

Definition addComment : M Home.state unit := Home.addCommentWith "No logs".

End Screens.

End Variant2.

Module Variant3.

Section ExportFunction.
Context `{Runtime} {S : Type}.

Definition exportLogsFunction (logs : list LogRecord)
    (clearLogsCallback : M S unit) : M S unit :=
  let logString := JSON_stringify_indent logs in
  try_catch
    (match Platform_OS with
     | web => delivered (download logString (JS.lit "activity_logs.json"))
     | _ =>
         let fileUri := documentDirectory ++ JS.lit "activity_logs.json" in
         delivered (writeAsStringAsync fileUri logString) >>
         delivered (Share_share (ShareUrl fileUri))
     end >>
     AsyncStorage_removeItem LOGS_KEY >>
     clearLogsCallback >>
     Alert_alert "Success" "Logs exported and cleared.")
    (fun _ =>
       console_error "Error exporting logs:" >>
       Alert_alert "Export Error" "Failed to export logs.").

End ExportFunction.

Section Screens.
Context `{Runtime}.

Definition handleExportLogs : M App.state unit :=
  let! s := get in
  let! logs := loadLogsFromStorage in
  exportLogsFunction logs (App.refreshHome (App.reloadFlag s)).

End Screens.

End Variant3.

(** ** The App and its Home screen together *)

(** After a handler of [App] has run, React renders again and the effect of
    the Home screen runs when [reloadFlag] has changed. *)
Record Screens := mkScreens {
  app : App.state;
  home : Home.state;
}.

Section Rendering.
Context `{Runtime}.

Definition rerenderHome (before after : App.state) : M Home.state unit :=
  if Bool.eqb (App.reloadFlag before) (App.reloadFlag after) then ret tt
  else Home.reload.

(** Run a handler of [App], then the effects of the render that follows. *)
Definition withRender {A} (handler : M App.state A) (sc : Screens) (w : World)
    : result A * Screens * World :=
  match handler (app sc) w with
  | (r, app', w') =>
      match rerenderHome (app sc) app' (home sc) w' with
      | (_, home', w'') => (r, mkScreens app' home', w'')
      end
  end.

(** What a screen gets when it reads the log from storage. *)
Definition snapshot (w : World) : list LogRecord :=
  match loadLogsFromStorage tt w with
  | (Ok logs, _, _) => logs
  | (Throw _, _, _) => []
  end.

End Rendering.

(** ** A runtime to run the programs on

    The theorems below hold for every runtime. This one serves to run the
    definitions on concrete inputs: [JSON.stringify] and
    [Date.prototype.toISOString] are written out; the two parsers and
    [yaml.dump] answer on the texts the examples use and on nothing else. *)

Module Sample.

Definition quote : N := 34.
Definition backslash : N := 92.

Definition hexDigit (n : N) : N := (if n <? 10 then 48 + n else 87 + n)%N.

(** The escape with four hexadecimal digits of a code unit. *)
Definition unicodeEscape (c : N) : JS.str :=
  [backslash; 117%N; hexDigit (c / 4096); hexDigit ((c / 256) mod 16);
   hexDigit ((c / 16) mod 16); hexDigit (c mod 16)]%N.

Definition isLeadSurrogate (c : N) : bool := ((55296 <=? c) && (c <=? 56319))%N.
Definition isTrailSurrogate (c : N) : bool := ((56320 <=? c) && (c <=? 57343))%N.

(** [QuoteJSONString] without the enclosing quotes. *)
Fixpoint quoteBody (s : JS.str) : JS.str :=
  match s with
  | [] => []
  | c :: s' =>
      if (c =? 8)%N then backslash :: 98%N :: quoteBody s'
      else if (c =? 9)%N then backslash :: 116%N :: quoteBody s'
      else if (c =? 10)%N then backslash :: 110%N :: quoteBody s'
      else if (c =? 12)%N then backslash :: 102%N :: quoteBody s'
      else if (c =? 13)%N then backslash :: 114%N :: quoteBody s'
      else if (c =? quote)%N then backslash :: quote :: quoteBody s'
      else if (c =? backslash)%N then backslash :: backslash :: quoteBody s'
      else if (c <? 32)%N then unicodeEscape c ++ quoteBody s'
      else if isLeadSurrogate c then
        match s' with
        | d :: s'' =>
            if isTrailSurrogate d then c :: d :: quoteBody s''
            else unicodeEscape c ++ quoteBody s'
        | [] => unicodeEscape c
        end
      else if isTrailSurrogate c then unicodeEscape c ++ quoteBody s'
      else c :: quoteBody s'
  end.

Definition quoteJSONString (s : JS.str) : JS.str :=
  quote :: quoteBody s ++ [quote].

(** [JSON.stringify] of an array of strings and of the log, without
    indentation. A missing [comments] is left out of the object. *)
Definition stringifyStrings (a : list JS.str) : JS.str :=
  JS.lit "[" ++ JS.join (JS.lit ",") (List.map quoteJSONString a) ++ JS.lit "]".

Definition stringifyRecord (r : LogRecord) : JS.str :=
  JS.lit "{" ++ quoteJSONString (JS.lit "activity") ++ JS.lit ":"
    ++ quoteJSONString (activity r)
    ++ JS.lit "," ++ quoteJSONString (JS.lit "timestamp") ++ JS.lit ":"
    ++ quoteJSONString (timestamp r)
    ++ match comments r with
       | Some cs =>
           JS.lit "," ++ quoteJSONString (JS.lit "comments") ++ JS.lit ":"
             ++ stringifyStrings cs
       | None => []
       end
    ++ JS.lit "}".

Definition stringify (logs : list LogRecord) : JS.str :=
  JS.lit "[" ++ JS.join (JS.lit ",") (List.map stringifyRecord logs) ++ JS.lit "]".

Definition newline : JS.str := [10%N].

(** [JSON.stringify(logs, null, 2)]: an empty array stays [[]]; the
    members of another one come on lines of their own, two spaces deeper. *)
Definition stringifyStringsIndent (a : list JS.str) : JS.str :=
  match a with
  | [] => JS.lit "[]"
  | _ =>
      JS.lit "[" ++ newline
        ++ JS.join (JS.lit "," ++ newline)
             (List.map (fun c => JS.lit "      " ++ quoteJSONString c) a)
        ++ newline ++ JS.lit "    ]"
  end.

Definition stringifyRecordIndent (r : LogRecord) : JS.str :=
  JS.lit "  {" ++ newline
    ++ JS.lit "    " ++ quoteJSONString (JS.lit "activity") ++ JS.lit ": "
    ++ quoteJSONString (activity r) ++ JS.lit "," ++ newline
    ++ JS.lit "    " ++ quoteJSONString (JS.lit "timestamp") ++ JS.lit ": "
    ++ quoteJSONString (timestamp r)
    ++ match comments r with
       | Some cs =>
           JS.lit "," ++ newline ++ JS.lit "    "
             ++ quoteJSONString (JS.lit "comments") ++ JS.lit ": "
             ++ stringifyStringsIndent cs
       | None => []
       end
    ++ newline ++ JS.lit "  }".

Definition stringifyIndent (logs : list LogRecord) : JS.str :=
  match logs with
  | [] => JS.lit "[]"
  | _ =>
      JS.lit "[" ++ newline
        ++ JS.join (JS.lit "," ++ newline) (List.map stringifyRecordIndent logs)
        ++ newline ++ JS.lit "]"
  end.

(** Decimal digits of [n], padded with zeros to [width] digits. *)
Fixpoint digits (width : nat) (n : Z) : JS.str :=
  match width with
  | O => []
  | Datatypes.S w => digits w (n / 10) ++ [Z.to_N (48 + n mod 10)]
  end.

(** Year, month and day of a day number counted from 1970-01-01, in the
    proleptic Gregorian calendar. *)
Definition civil (days : Z) : Z * Z * Z :=
  let z := days + 719468 in
  let era := z / 146097 in
  let doe := z - era * 146097 in
  let yoe := (doe - doe / 1460 + doe / 36524 - doe / 146096) / 365 in
  let doy := doe - (365 * yoe + yoe / 4 - yoe / 100) in
  let mp := (5 * doy + 2) / 153 in
  let d := doy - (153 * mp + 2) / 5 + 1 in
  let m := if mp <? 10 then mp + 3 else mp - 9 in
  let y := yoe + era * 400 + (if m <=? 2 then 1 else 0) in
  (y, m, d).

(** [new Date(t).toISOString()], [t] in milliseconds since the epoch. *)
Definition isoString (t : Z) : JS.str :=
  let days := t / 86400000 in
  let ms := t mod 86400000 in
  let '(y, m, d) := civil days in
  let year :=
    if (0 <=? y) && (y <=? 9999) then digits 4 y
    else if y <? 0 then JS.lit "-" ++ digits 6 (- y)
    else JS.lit "+" ++ digits 6 y in
  year ++ JS.lit "-" ++ digits 2 m ++ JS.lit "-" ++ digits 2 d
    ++ JS.lit "T" ++ digits 2 (ms / 3600000)
    ++ JS.lit ":" ++ digits 2 ((ms / 60000) mod 60)
    ++ JS.lit ":" ++ digits 2 ((ms / 1000) mod 60)
    ++ JS.lit "." ++ digits 3 (ms mod 1000) ++ JS.lit "Z".

(** A configuration without an [activities] list, and its YAML text. *)
Definition themeOnlyText : JS.str := JS.lit "theme: dark".
Definition themeOnly : jsval := JObj [(JS.lit "theme", JStr (JS.lit "dark"))].

Definition gymText : JS.str :=
  JS.lit "activities:" ++ newline ++ JS.lit "  - Gym" ++ newline.
Definition gymConfig : jsval := JObj [(JS.lit "activities", JArr [JStr (JS.lit "Gym")])].

Definition defaultText : JS.str :=
  JS.lit "activities:" ++ newline ++ JS.lit "  - Work" ++ newline
    ++ JS.lit "  - Break" ++ newline ++ JS.lit "  - Exercise" ++ newline.

(** A text no YAML parser accepts: a flow sequence that is never closed. *)
Definition brokenYaml : JS.str := JS.lit "activities: [Work".

(** A text no JSON parser accepts. *)
Definition brokenJson : JS.str := JS.lit "[{".

Definition parseLogs (known : list (list LogRecord)) (text : JS.str)
    : option (list LogRecord) :=
  List.find (fun logs => bool_decide (stringify logs = text)) known.

Definition loadYaml (text : JS.str) : option jsval :=
  if decide (text = themeOnlyText) then Some themeOnly
  else if decide (text = gymText) then Some gymConfig
  else if decide (text = defaultText) then Some DEFAULT_CONFIG
  else None.

(** [known]: the logs [JSON.parse] recognises the texts of;
    [sinkWorks]: whether the download, the file and the share sheet work. *)
Definition runtime (os : Platform) (known : list (list LogRecord))
    (sinkWorks : bool) : Runtime := {|
  Platform_OS := os;
  JSON_stringify := stringify;
  JSON_stringify_indent := stringifyIndent;
  JSON_parse := parseLogs known;
  yaml_load := loadYaml;
  yaml_dump := fun c => defaultText;
  toISOString := isoString;
  documentDirectory := JS.lit "file:///documents/";
  download := fun _ _ => sinkWorks;
  writeAsStringAsync := fun _ _ => sinkWorks;
  Share_share := fun _ => sinkWorks;
|}.

(** A device in working order with the given storage. *)
Definition world (m : gmap string JS.str) : World :=
  mkWorld m false false false [] [].

Definition work (t : Z) : LogRecord :=
  mkLog (JS.lit "Work") (isoString t) (Some []).

(** A device whose storage refuses to write. *)
Definition fullDisk (m : gmap string JS.str) : World :=
  mkWorld m false true false [] [].

(** Three entries, and the editor of the Logs screen after a press on the
    first row shown and some typing: the activity with blanks around it. *)
Definition threeLogs : list LogRecord :=
  [work 0; mkLog (JS.lit "Break") (isoString 60000) (Some [JS.lit "tea"]);
   work 120000].

Definition typed (activity comments : string) : Logs.state :=
  Logs.mk threeLogs true (Some 2) (JS.lit activity) (JS.lit comments).

(** A storage that holds the three entries, as [saveLogsToStorage] left
    them. *)
Definition stored : gmap string JS.str := {[ LOGS_KEY := stringify threeLogs ]}.

(** The screens of an application that has the three entries on show. *)
Definition screens : Screens :=
  mkScreens App.initial (Home.mk threeLogs false []).

(** An iPhone whose file system and share sheet work, and whose
    [JSON.parse] knows the text of the three entries. *)
Definition phone : Runtime := runtime ios [threeLogs] true.

(** Work, then a break, then a comment typed and sent. *)
Definition workBreakComment `{Runtime} : M Home.state unit :=
  Home.recordActivity (JS.lit "Work") 1744210800000 >>
  Home.recordActivity (JS.lit "Break") 1744212600000 >>
  modify (Home.setCommentText (JS.lit "short break")) >>
  Home.addComment.


End Sample.

(** ** Vocabulary of the properties *)

Section Vocabulary.
Context `{Runtime}.

(** The entry [recordActivity] makes for a label at an instant. *)
Definition newEntry (call : JS.str * Z) : LogRecord :=
  mkLog (fst call) (toISOString (snd call)) (Some []).

(** [recordActivity] as the closure that one render of the Home screen
    hands to its buttons: [logs] is the log that render read from the
    state, and it is the log the handler appends to, whatever the state is
    by the time of the press. [Home.recordActivity] is this handler for a
    render of the state the press finds. *)
Definition recordActivityOfRender (logs : list LogRecord) (activity : JS.str)
    (now : Z) : M Home.state unit :=
  let newEntry := mkLog activity (toISOString now) (Some []) in
  let updatedLogs := logs ++ [newEntry] in
  saveLogsToStorage updatedLogs >>
  modify (Home.setLogs updatedLogs).

(** What the Home screen meets: a press on an activity button, with the
    instant the clock shows, or a render, which reads the state anew. *)
Inductive homeEvent :=
| Press (activity : JS.str) (now : Z)
| Render.

(** The events in turn, for a screen whose last render captured the log
    [captured]. The handlers of presses that one render serves run here
    one after the other; in whatever order their writes end, each sets the
    log of its render with its own entry after it. *)
Fixpoint homeEvents (captured : list LogRecord) (events : list homeEvent)
    : M Home.state unit :=
  match events with
  | [] => ret tt
  | Press activity now :: rest =>
      recordActivityOfRender captured activity now >> homeEvents captured rest
  | Render :: rest =>
      let! s := get in
      homeEvents (Home.logs s) rest
  end.



(** The same calls with no render between them. *)
Definition atOnce (calls : list (JS.str * Z)) : list homeEvent :=
  List.map (fun call => Press (fst call) (snd call)) calls.

(** The name of the exported file in the first and second variant. *)
Definition fileNameAt (now : Z) : JS.str :=
  JS.lit "activity_logs_"
    ++ JS.replaceAll JS.colon JS.underscore (toISOString now)
    ++ JS.lit ".json".

(** Whether the sink takes the log: the download on the web; the file and
    the share sheet on a phone (the second variant shares the text itself
    on Android). *)
Definition sinkDelivers1 (now : Z) (logs : list LogRecord) : bool :=
  match Platform_OS with
  | web => download (JSON_stringify_indent logs) (fileNameAt now)
  | _ =>
      writeAsStringAsync (documentDirectory ++ fileNameAt now)
                         (JSON_stringify_indent logs)
      && Share_share (ShareUrl (documentDirectory ++ fileNameAt now))
  end.

Definition sinkDelivers2 (now : Z) (logs : list LogRecord) : bool :=
  match Platform_OS with
  | web => download (JSON_stringify_indent logs) (fileNameAt now)
  | android => Share_share (ShareMessage (JSON_stringify_indent logs))
  | ios =>
      writeAsStringAsync (documentDirectory ++ fileNameAt now)
                         (JSON_stringify_indent logs)
      && Share_share (ShareUrl (documentDirectory ++ fileNameAt now))
  end.

(** In the second variant a phone asks whether the logs were exported. *)
Definition confirmed2 (pressed : button) : bool :=
  match Platform_OS, pressed with
  | web, _ => true
  | _, Yes => true
  | _, No => false
  end.

(** The world after a read of the logs: the console may have a new line. *)
Definition afterLoad (w : World) : World := (loadLogsFromStorage tt w).2.

End Vocabulary.


Definition errorLogged (msg : string) (w : World) : World :=
  with_console (console w ++ [msg]) w.

Definition alerted (title message : string) (w : World) : World :=
  with_alerts (alerts w ++ [(title, Some message)]) w.

Definition alertedTitle (title : string) (w : World) : World :=
  with_alerts (alerts w ++ [(title, None)]) w.

(** ** The list of the Logs screen *)

Module LogsList.

Definition dot : N := 46.
Definition letterT : N := 84.
Definition space : N := 32.
Definition bullet : N := 8226.

(** [s.replace(c, d)] with a pattern that is a string of one code unit:
    only the first occurrence is replaced. *)
Fixpoint replaceFirst (c d : N) (s : JS.str) : JS.str :=
  match s with
  | [] => []
  | x :: s' => if (x =? c)%N then d :: s' else x :: replaceFirst c d s'
  end.

(** [s.split('.')[0]] *)
Definition beforeDot (s : JS.str) : JS.str :=
  match JS.split dot s with
  | piece :: _ => piece
  | [] => []
  end.

(** [item.timestamp.split('.')[0].replace('T', ' ')] *)
Definition shownTimestamp (timestamp : JS.str) : JS.str :=
  replaceFirst letterT space (beforeDot timestamp).

(** The first line of a row in the first and second variant, and in the
    third, which shows the timestamp as stored. *)
Definition logText (item : LogRecord) : JS.str :=
  shownTimestamp (timestamp item) ++ JS.lit " - " ++ activity item.

Definition logText3 (item : LogRecord) : JS.str :=
  timestamp item ++ JS.lit " - " ++ activity item.

(** [item.comments && item.comments.map(...)]: a bullet before each. *)
Definition commentLines (item : LogRecord) : list JS.str :=
  match comments item with
  | Some cs => List.map (fun comment => bullet :: space :: comment) cs
  | None => []
  end.

(** [renderItem]: the lines of text of a row. *)
Definition renderItem (item : LogRecord) : list JS.str :=
  logText item :: commentLines item.

Definition renderItem3 (item : LogRecord) : list JS.str :=
  logText3 item :: commentLines item.

Section Focus.
Context `{Runtime}.

(** The focus effect of the first variant keeps the list reversed in its
    state: [setLogs(loadedLogs.slice().reverse())]; the list shows the state. *)
Definition focus1 : M (list LogRecord) unit :=
  let! loadedLogs := loadLogsFromStorage in
  modify (fun _ => rev loadedLogs).

(** The one of the third variant keeps it as stored. *)
Definition focus3 : M (list LogRecord) unit :=
  let! loadedLogs := loadLogsFromStorage in
  modify (fun _ => loadedLogs).

End Focus.

End LogsList.

(** ** Sequences of presses *)

Section Sequences.
Context `{Runtime}.

(** A press on a row of the Logs screen of the second variant, then 'Save'
    with the editor as it opened. *)
Definition pressAndSave (index : nat) : M Logs.state unit :=
  Logs.pressRow index >> Logs.saveEditedLog.

(** The same with both fields of the editor typed over before 'Save'. *)
Definition pressTypeSave (index : nat) (typedActivity typedComments : JS.str)
    : M Logs.state unit :=
  Logs.pressRow index >>
  modify (Logs.setEditedActivity typedActivity) >>
  modify (Logs.setEditedComments typedComments) >>
  Logs.saveEditedLog.

(** An activity button, then the effect on [reloadFlag] once more. *)
Definition recordThenReload (activity : JS.str) (now : Z) : M Home.state unit :=
  Home.recordActivity activity now >> Home.reload.

(** An activity button, then a comment typed and sent. *)
Definition recordThenComment (title : string) (activity : JS.str) (now : Z)
    (text : JS.str) : M Home.state unit :=
  Home.recordActivity activity now >>
  modify (Home.setCommentText text) >>
  Home.addCommentWith title.

(** 'Save Settings', the application closed, and its next start. *)
Definition saveThenRestart (yamlText selectedTheme : JS.str) (s : App.state)
    (w : World) : result unit * App.state * World :=
  App.startup App.initial (Settings.saveSettings yamlText selectedTheme s w).2.

(** Whether the sink of the third variant takes the log. *)
Definition sinkDelivers3 (logs : list LogRecord) : bool :=
  match Platform_OS with
  | web => download (JSON_stringify_indent logs) (JS.lit "activity_logs.json")
  | _ =>
      writeAsStringAsync (documentDirectory ++ JS.lit "activity_logs.json")
                         (JSON_stringify_indent logs)
      && Share_share (ShareUrl (documentDirectory ++ JS.lit "activity_logs.json"))
  end.

End Sequences.

(** A comment that survives the editor: not empty, no blank at either end,
    no comma. *)
Definition cleanComment (c : JS.str) : Prop :=
  c <> [] /\ JS.trim c = c /\ Forall (fun x => x <> JS.comma) c.

(** More to run the programs on. *)
Module Sample2.

(** [js-yaml] loads the empty document as [undefined]. *)
Definition loadYaml (text : JS.str) : option jsval :=
  if decide (text = []) then Some JUndefined else Sample.loadYaml text.

(** The phone of [Sample.phone] with that parser, a [JSON.parse] that knows
    the given logs, and a sink that works or not. *)
Definition runtime (os : Platform) (known : list (list LogRecord))
    (sinkWorks : bool) : Runtime := {|
  Platform_OS := os;
  JSON_stringify := Sample.stringify;
  JSON_stringify_indent := Sample.stringifyIndent;
  JSON_parse := Sample.parseLogs known;
  yaml_load := loadYaml;
  yaml_dump := fun c => Sample.defaultText;
  toISOString := Sample.isoString;
  documentDirectory := JS.lit "file:///documents/";
  download := fun _ _ => sinkWorks;
  writeAsStringAsync := fun _ _ => sinkWorks;
  Share_share := fun _ => sinkWorks;
|}.

(** A device whose storage refuses to remove. *)
Definition stuck (m : gmap string JS.str) : World :=
  mkWorld m false false true [] [].

Definition tea : LogRecord :=
  mkLog (JS.lit "Break") (Sample.isoString 60000) (Some [JS.lit "tea"]).

End Sample2.

(** * Properties *)

Ltac run :=
  unfold bind, try_catch, ret, throw, get, modify, parsed, delivered,
    AsyncStorage_getItem, AsyncStorage_setItem, AsyncStorage_removeItem,
    console_error, Alert_alert, errorLogged, alerted in *; simpl in *.

Section StorageFacts.
Context `{Runtime} {S : Type}.

Lemma saveLogsToStorage_run (logs : list LogRecord) (s : S) (w : World) :
  saveLogsToStorage logs s w =
    (Ok tt, s,
     if setItem_rejects w then errorLogged "Error saving logs:" w
     else with_storage (<[LOGS_KEY := JSON_stringify logs]> (storage w)) w).
Proof. unfold saveLogsToStorage. run. by destruct (setItem_rejects w). Qed.

Lemma loadLogsFromStorage_run (s : S) (w : World) :
  loadLogsFromStorage s w =
    if getItem_rejects w then (Ok [], s, errorLogged "Error reading logs:" w)
    else match storage w !! LOGS_KEY with
         | None => (Ok [], s, w)
         | Some text =>
             match JSON_parse text with
             | Some logs => (Ok logs, s, w)
             | None => (Ok [], s, errorLogged "Error reading logs:" w)
             end
         end.
Proof.
  unfold loadLogsFromStorage. run.
  destruct (getItem_rejects w); [done|].
  destruct (storage w !! LOGS_KEY) as [text|]; [|done].
  by destruct (JSON_parse text).
Qed.

Lemma loadLogsFromStorage_storage (s : S) (w : World) :
  storage (loadLogsFromStorage s w).2 = storage w
  /\ (loadLogsFromStorage s w).1.2 = s.
Proof.
  rewrite loadLogsFromStorage_run.
  destruct (getItem_rejects w); [done|].
  destruct (storage w !! LOGS_KEY) as [text|]; [|done].
  by destruct (JSON_parse text).
Qed.

End StorageFacts.

Section HomeFacts.
Context `{Runtime}.

Lemma recordActivity_run (activity : JS.str) (now : Z) (s : Home.state) (w : World) :
  Home.recordActivity activity now s w =
    (Ok tt, Home.setLogs (Home.logs s ++ [newEntry (activity, now)]) s,
     if setItem_rejects w then errorLogged "Error saving logs:" w
     else with_storage
            (<[LOGS_KEY := JSON_stringify (Home.logs s ++ [newEntry (activity, now)])]>
               (storage w)) w).
Proof.
  unfold Home.recordActivity, bind at 1, get. simpl.
  unfold bind. rewrite saveLogsToStorage_run. reflexivity.
Qed.

Lemma recordActivityOfRender_run (captured : list LogRecord) (activity : JS.str)
    (now : Z) (s : Home.state) (w : World) :
  recordActivityOfRender captured activity now s w =
    (Ok tt, Home.setLogs (captured ++ [newEntry (activity, now)]) s,
     if setItem_rejects w then errorLogged "Error saving logs:" w
     else with_storage
            (<[LOGS_KEY := JSON_stringify (captured ++ [newEntry (activity, now)])]>
               (storage w)) w).
Proof.
  unfold recordActivityOfRender, bind. rewrite saveLogsToStorage_run. reflexivity.
Qed.

(** The handler of the Home screen is the closure of a render of the state
    it is called in. *)
Lemma recordActivity_of_fresh_render (activity : JS.str) (now : Z)
    (s : Home.state) (w : World) :
  Home.recordActivity activity now s w
  = recordActivityOfRender (Home.logs s) activity now s w.
Proof. by rewrite recordActivity_run, recordActivityOfRender_run. Qed.




(** Presses that one render serves: the log is the one that render
    captured with the entry of the last press after it. *)
Lemma atOnce_run (captured : list LogRecord) (calls : list (JS.str * Z))
    (s : Home.state) (w : World) :
  Home.logs (homeEvents captured (atOnce calls) s w).1.2
  = match last calls with
    | Some call => captured ++ [newEntry call]
    | None => Home.logs s
    end.
Proof.
  revert s w. induction calls as [|[a now] rest IH]; intros s w; [done|].
  simpl. unfold bind at 1. rewrite recordActivityOfRender_run.
  rewrite IH, (last_cons (a, now) rest). by destruct (last rest).
Qed.


End HomeFacts.

Section OrderFacts.




Lemma map_timestamp_alter (f : LogRecord -> LogRecord) (i : nat)
    (l : list LogRecord) :
  (forall r, timestamp (f r) = timestamp r) ->
  List.map timestamp (alter f i l) = List.map timestamp l.
Proof.
  intros Hf. revert i. induction l as [|r l IH]; intros [|i]; simpl; try done.
  - by rewrite Hf.
  - f_equal. apply IH.
Qed.

Lemma map_timestamp_insert (i : nat) (r' : LogRecord) (l : list LogRecord) :
  (forall r, l !! i = Some r -> timestamp r' = timestamp r) ->
  List.map timestamp (<[i := r']> l) = List.map timestamp l.
Proof.
  revert i. induction l as [|r l IH]; intros [|i] Hr; simpl; try done.
  - by rewrite (Hr r).
  - f_equal. apply IH. intros r0 Hr0. by apply Hr.
Qed.


End OrderFacts.

Section HomeRuns.
Context `{Runtime}.

Lemma addCommentWith_empty (title : string) (s : Home.state) (w : World) :
  Home.logs s = [] ->
  Home.addCommentWith title s w =
    (Ok tt, s, alerted title "Please log an activity first." w).
Proof. intros Hs. unfold Home.addCommentWith. run. by rewrite Hs. Qed.

Lemma addCommentWith_nonempty (title : string) (s : Home.state) (w : World) :
  Home.logs s <> [] ->
  let updated :=
    alter (Home.pushComment (Home.commentText s))
          (List.length (Home.logs s) - 1)%nat (Home.logs s) in
  Home.addCommentWith title s w =
    (Ok tt, Home.mk updated false [],
     if setItem_rejects w then errorLogged "Error saving logs:" w
     else with_storage (<[LOGS_KEY := JSON_stringify updated]> (storage w)) w).
Proof.
  intros Hs. cbv zeta. unfold Home.addCommentWith, bind at 1, get. simpl.
  destruct (Nat.eqb_spec (List.length (Home.logs s)) 0) as [E|_].
  - by destruct (Home.logs s).
  - unfold bind at 1. rewrite saveLogsToStorage_run. reflexivity.
Qed.


End HomeRuns.

Section LogsRuns.
Context `{Runtime}.

Lemma at_index_Some {A} (l : list A) (i : Z) (x : A) :
  Logs.at_index l i = Some x -> 0 <= i /\ l !! Z.to_nat i = Some x.
Proof.
  unfold Logs.at_index. destruct (Z.ltb_spec i 0); [done|]. by split.
Qed.

Lemma saveEditedLog_run (s : Logs.state) (w : World) (i : Z) (entry : LogRecord) :
  Logs.currentEditingIndex s = Some i ->
  Logs.at_index (Logs.logs s) i = Some entry ->
  let edited :=
    mkLog (Logs.editedActivity s) (timestamp entry)
          (Some (Logs.splitComments (Logs.editedComments s))) in
  let updated := <[Z.to_nat i := edited]> (Logs.logs s) in
  Logs.saveEditedLog s w =
    (Ok tt,
     Logs.mk updated false (Some i) (Logs.editedActivity s) (Logs.editedComments s),
     if setItem_rejects w then errorLogged "Error saving logs:" w
     else with_storage (<[LOGS_KEY := JSON_stringify updated]> (storage w)) w).
Proof.
  intros Hi He edited updated.
  unfold Logs.saveEditedLog, bind at 1, get. simpl. rewrite Hi, He.
  unfold bind at 1. rewrite saveLogsToStorage_run.
  unfold bind, modify, Logs.setEditModalVisible, Logs.setLogs. simpl.
  by rewrite Hi.
Qed.


End LogsRuns.

(** ** Recording activities and adding comments *)

Section HomeClaims.
Context `{Runtime}.


(** C3: on an empty log the comment is refused whatever its text: the
    user is told to log an activity first, and the state of the screen,
    the storage and the console stay as they were. *)
Theorem addComment_on_empty_log (visible : bool) (text : JS.str) (w : World) :
  Variant1.addComment (Home.mk [] visible text) w
    = (Ok tt, Home.mk [] visible text,
       alerted "No logs available" "Please log an activity first." w)
  /\ Variant2.addComment (Home.mk [] visible text) w
    = (Ok tt, Home.mk [] visible text,
       alerted "No logs" "Please log an activity first." w)
  /\ (forall title message,
        storage (alerted title message w) = storage w
        /\ console (alerted title message w) = console w).
Proof.
  split; [|split].
  - by apply addCommentWith_empty.
  - by apply addCommentWith_empty.
  - done.
Qed.

(** C5, as the code has it: every label is accepted, the empty one and a
    blank one too; the call succeeds and appends an entry with the label
    as given, the instant of the call and an empty list of comments. *)
Theorem recordActivity_accepts_every_label (activity : JS.str) (now : Z)
    (s : Home.state) (w : World) :
  (Home.recordActivity activity now s w).1.1 = Ok tt
  /\ Home.logs (Home.recordActivity activity now s w).1.2
     = Home.logs s ++ [mkLog activity (toISOString now) (Some [])].
Proof. by rewrite recordActivity_run. Qed.

(** C7, as the code has it: when the write to storage is refused, the
    three operations still succeed for their caller; the refusal goes to
    the console and to nobody else, the storage keeps what it had, and the
    log on the screen is the changed one. *)
Theorem refused_write_is_logged_only (w : World) :
  setItem_rejects w = true ->
  storage (errorLogged "Error saving logs:" w) = storage w
  /\ alerts (errorLogged "Error saving logs:" w) = alerts w
  /\ (forall activity now s,
        Home.recordActivity activity now s w
        = (Ok tt, Home.setLogs (Home.logs s ++ [newEntry (activity, now)]) s,
           errorLogged "Error saving logs:" w))
  /\ (forall title s,
        Home.logs s <> [] ->
        Home.addCommentWith title s w
        = (Ok tt,
           Home.mk (alter (Home.pushComment (Home.commentText s))
                          (List.length (Home.logs s) - 1)%nat (Home.logs s))
                   false [],
           errorLogged "Error saving logs:" w))
  /\ (forall s i entry,
        Logs.currentEditingIndex s = Some i ->
        Logs.at_index (Logs.logs s) i = Some entry ->
        Logs.saveEditedLog s w
        = (Ok tt,
           Logs.mk (<[Z.to_nat i :=
                        mkLog (Logs.editedActivity s) (timestamp entry)
                              (Some (Logs.splitComments (Logs.editedComments s)))]>
                      (Logs.logs s))
                   false (Some i) (Logs.editedActivity s) (Logs.editedComments s),
           errorLogged "Error saving logs:" w)).
Proof.
  intros Hw. repeat split.
  - intros activity now s. by rewrite recordActivity_run, Hw.
  - intros title s Hs. by rewrite addCommentWith_nonempty, Hw.
  - intros s i entry Hi He. by rewrite (saveEditedLog_run s w i entry Hi He), Hw.
Qed.

End HomeClaims.



(** C5: the empty label is recorded like any other. *)
Lemma recordActivity_empty_label :
  Home.recordActivity (H := Sample.runtime web [] true) [] 0
                      Home.initial (Sample.world ∅)
  = (Ok tt,
     Home.mk [mkLog [] (JS.lit "1970-01-01T00:00:00.000Z") (Some [])] false [],
     Sample.world
       {[ LOGS_KEY := Sample.stringify
                        [mkLog [] (JS.lit "1970-01-01T00:00:00.000Z") (Some [])] ]})
  /\ JS.trim [] = [].
Proof. split; reflexivity. Qed.

(** C7: with a storage that refuses the write, recording an activity
    returns normally, shows no alert, and the screen has the new entry
    while the storage has none. *)
Lemma recordActivity_refused_write :
  Home.recordActivity (H := Sample.runtime web [] true) (JS.lit "Work") 0
                      Home.initial (Sample.fullDisk ∅)
  = (Ok tt, Home.mk [Sample.work 0] false [],
     mkWorld ∅ false true false ["Error saving logs:"] []).
Proof. reflexivity. Qed.

Lemma refused_write_is_logged_only_witness :
  setItem_rejects (Sample.fullDisk ∅) = true
  /\ Home.recordActivity (H := Sample.runtime web [] true) (JS.lit "Work") 0
                         Home.initial (Sample.fullDisk ∅)
     = (Ok tt, Home.mk [Sample.work 0] false [],
        errorLogged "Error saving logs:" (Sample.fullDisk ∅)).
Proof.
  split; [reflexivity|].
  destruct (refused_write_is_logged_only (H := Sample.runtime web [] true)
              (Sample.fullDisk ∅) eq_refl) as (_ & _ & Hrec & _).
  exact (Hrec (JS.lit "Work") 0 Home.initial).
Defined.

(** ** Trimming *)

Section TrimFacts.

Lemma trimStart_length (s : JS.str) :
  (List.length (JS.trimStart s) <= List.length s)%nat.
Proof.
  induction s as [|c s IH]; simpl; [lia|].
  destruct (JS.isWhiteSpace c); simpl; lia.
Qed.

Lemma trimStart_idem (s : JS.str) :
  JS.trimStart (JS.trimStart s) = JS.trimStart s.
Proof.
  induction s as [|c s IH]; simpl; [done|].
  destruct (JS.isWhiteSpace c) eqn:E; [done|]. simpl. by rewrite E.
Qed.

(** A string [trimStart] leaves alone is empty or starts with a code unit
    that is not white space. *)
Lemma trimStart_fixed (s : JS.str) :
  JS.trimStart s = s ->
  s = [] \/ exists c s', s = c :: s' /\ JS.isWhiteSpace c = false.
Proof.
  destruct s as [|c s]; [by left|]. simpl.
  destruct (JS.isWhiteSpace c) eqn:E.
  - intros Heq. pose proof (trimStart_length s) as Hlen.
    rewrite Heq in Hlen. simpl in Hlen. lia.
  - intros _. right. by exists c, s.
Qed.

Lemma trimStart_snoc (s : JS.str) (c : N) :
  JS.trimStart (s ++ [c]) =
    match JS.trimStart s with
    | [] => JS.trimStart [c]
    | _ => JS.trimStart s ++ [c]
    end.
Proof.
  induction s as [|d s IH]; simpl; [done|].
  by destruct (JS.isWhiteSpace d).
Qed.

Lemma trimEnd_cons (c : N) (s : JS.str) :
  JS.trimEnd (c :: s) =
    match JS.trimEnd s with
    | [] => if JS.isWhiteSpace c then [] else [c]
    | _ => c :: JS.trimEnd s
    end.
Proof.
  unfold JS.trimEnd. simpl. rewrite trimStart_snoc.
  destruct (JS.trimStart (rev s)) as [|d t] eqn:E; simpl.
  - by destruct (JS.isWhiteSpace c).
  - rewrite rev_app_distr. simpl.
    destruct (rev t ++ [d]) eqn:E'; [by destruct (rev t)|done].
Qed.

Lemma trimEnd_idem (s : JS.str) : JS.trimEnd (JS.trimEnd s) = JS.trimEnd s.
Proof.
  unfold JS.trimEnd. by rewrite rev_involutive, trimStart_idem.
Qed.

Lemma trimStart_trimEnd (s : JS.str) :
  JS.trimStart s = s -> JS.trimStart (JS.trimEnd s) = JS.trimEnd s.
Proof.
  intros Hs. destruct (trimStart_fixed s Hs) as [->|(c & s' & -> & Hc)]; [done|].
  rewrite trimEnd_cons. destruct (JS.trimEnd s'); rewrite ?Hc; simpl; by rewrite Hc.
Qed.

Lemma trim_idem (s : JS.str) : JS.trim (JS.trim s) = JS.trim s.
Proof.
  unfold JS.trim.
  rewrite (trimStart_trimEnd (JS.trimStart s)) by apply trimStart_idem.
  apply trimEnd_idem.
Qed.

Lemma splitComments_clean (raw : JS.str) :
  Forall (fun c => c <> [] /\ JS.trim c = c) (Logs.splitComments raw).
Proof.
  unfold Logs.splitComments.
  induction (JS.split JS.comma raw) as [|piece pieces IH]; simpl; [constructor|].
  destruct (JS.trim piece) eqn:E; simpl; [done|].
  constructor; [|done]. split; [done|]. rewrite <- E. apply trim_idem.
Qed.

End TrimFacts.

(** ** Editing an entry (second variant) *)

Section LogsClaims.
Context `{Runtime}.

(** C2: for a log of [n] entries and a row [d] of the list shown, with
    [0 <= d < n], opening the editor sets the stored index [n - 1 - d],
    which is where the storage order has the entry that the newest-first
    list shows in row [d]; row 0 is the last entry recorded; and the save
    that follows rewrites the entry at that stored index and no other. *)
Theorem openEditModal_inverts_index (s : Logs.state) (d : Z) (item : LogRecord)
    (w : World) :
  0 <= d < Z.of_nat (List.length (Logs.logs s)) ->
  let n := Z.of_nat (List.length (Logs.logs s)) in
  let after := (Logs.openEditModal d item s w).1.2 in
  (Logs.openEditModal d item s w).1.1 = Ok tt
  /\ Logs.currentEditingIndex after = Some (n - 1 - d)
  /\ Logs.logs after = Logs.logs s
  /\ Logs.at_index (Logs.logs s) (n - 1 - d) = Logs.displayed s !! Z.to_nat d
  /\ (d = 0 -> Logs.at_index (Logs.logs s) (n - 1 - d) = last (Logs.logs s))
  /\ (forall w1, exists edited,
        Logs.logs (Logs.saveEditedLog after w1).1.2
        = <[Z.to_nat (n - 1 - d) := edited]> (Logs.logs s)).
Proof.
  intros Hd n after. subst n after. unfold Logs.openEditModal. run.
  repeat split.
  - unfold Logs.at_index, Logs.displayed.
    destruct (Z.ltb_spec (Z.of_nat (List.length (Logs.logs s)) - 1 - d) 0); [lia|].
    rewrite rev_alt. change (rev_append (Logs.logs s) []) with (reverse (Logs.logs s)).
    rewrite reverse_lookup by lia. f_equal. lia.
  - intros ->. unfold Logs.at_index.
    destruct (Z.ltb_spec (Z.of_nat (List.length (Logs.logs s)) - 1 - 0) 0); [lia|].
    rewrite last_lookup. f_equal. lia.
  - intros w1.
    destruct (lookup_lt_is_Some_2 (Logs.logs s)
                (Z.to_nat (Z.of_nat (List.length (Logs.logs s)) - 1 - d)))
      as [entry Hentry]; [lia|].
    eexists.
    erewrite saveEditedLog_run with (entry := entry); [reflexivity|reflexivity|].
    unfold Logs.at_index. simpl.
    by destruct (Z.ltb_spec (Z.of_nat (List.length (Logs.logs s)) - 1 - d) 0); [lia|].
Qed.

(** C4, as the code has it: saving the editor replaces the activity of the
    entry by the text typed, blanks included, and its comments by the
    pieces of the comments text between commas, each trimmed, the empty
    ones dropped; the entry keeps its timestamp, the log its length, and
    every other entry is untouched. *)
Theorem saveEditedLog_replaces_entry (s : Logs.state) (w : World) (i : Z)
    (entry : LogRecord) :
  Logs.currentEditingIndex s = Some i ->
  Logs.at_index (Logs.logs s) i = Some entry ->
  let after := (Logs.saveEditedLog s w).1.2 in
  let pieces :=
    List.filter JS.truthy
      (List.map JS.trim (JS.split JS.comma (Logs.editedComments s))) in
  (Logs.saveEditedLog s w).1.1 = Ok tt
  /\ List.length (Logs.logs after) = List.length (Logs.logs s)
  /\ Logs.logs after !! Z.to_nat i
     = Some (mkLog (Logs.editedActivity s) (timestamp entry) (Some pieces))
  /\ (forall j, j <> Z.to_nat i -> Logs.logs after !! j = Logs.logs s !! j)
  /\ Forall (fun c => c <> [] /\ JS.trim c = c) pieces.
Proof.
  intros Hi He after pieces. subst after pieces.
  rewrite (saveEditedLog_run s w i entry Hi He). simpl.
  apply at_index_Some in He as [Hpos He].
  repeat split.
  - apply length_insert.
  - apply list_lookup_insert_eq. by eapply lookup_lt_Some.
  - intros j Hj. by apply list_lookup_insert_ne.
  - apply splitComments_clean.
Qed.

End LogsClaims.

Lemma openEditModal_inverts_index_witness :
  0 <= 0 < Z.of_nat (List.length Sample.threeLogs)
  /\ Logs.currentEditingIndex
       (Logs.openEditModal 0 (Sample.work 120000)
          (Logs.setLogs Sample.threeLogs Logs.initial) (Sample.world ∅)).1.2
     = Some 2.
Proof.
  assert (Hd : 0 <= 0 < Z.of_nat (List.length Sample.threeLogs)) by (simpl; lia).
  split; [exact Hd|].
  exact (proj1 (proj2 (openEditModal_inverts_index (H := Sample.phone)
                         (Logs.setLogs Sample.threeLogs Logs.initial) 0
                         (Sample.work 120000) (Sample.world ∅) Hd))).
Defined.

(** C4: an activity typed with blanks around it is stored with them. *)
Lemma saveEditedLog_keeps_blanks :
  Logs.logs (Logs.saveEditedLog (H := Sample.runtime web [] true)
               (Sample.typed " Gym " "warmup, cardio, stretch")
               (Sample.world ∅)).1.2
  = [Sample.work 0;
     mkLog (JS.lit "Break") (Sample.isoString 60000) (Some [JS.lit "tea"]);
     mkLog (JS.lit " Gym ") (Sample.isoString 120000)
           (Some [JS.lit "warmup"; JS.lit "cardio"; JS.lit "stretch"])]
  /\ JS.trim (JS.lit " Gym ") = JS.lit "Gym"
  /\ JS.lit " Gym " <> JS.trim (JS.lit " Gym ").
Proof. split; [reflexivity|]. split; [reflexivity|]. discriminate. Qed.

Lemma saveEditedLog_replaces_entry_witness :
  Logs.currentEditingIndex (Sample.typed "Gym" "warmup, cardio, stretch") = Some 2
  /\ Logs.at_index (Logs.logs (Sample.typed "Gym" "warmup, cardio, stretch")) 2
     = Some (Sample.work 120000)
  /\ Logs.logs (Logs.saveEditedLog (H := Sample.runtime web [] true)
                  (Sample.typed "Gym" "warmup, cardio, stretch")
                  (Sample.world ∅)).1.2 !! 2%nat
     = Some (mkLog (JS.lit "Gym") (Sample.isoString 120000)
                   (Some [JS.lit "warmup"; JS.lit "cardio"; JS.lit "stretch"])).
Proof.
  split; [reflexivity|]. split; [reflexivity|].
  exact (proj1 (proj2 (proj2
    (saveEditedLog_replaces_entry (H := Sample.runtime web [] true)
       (Sample.typed "Gym" "warmup, cardio, stretch") (Sample.world ∅) 2
       (Sample.work 120000) eq_refl eq_refl)))).
Defined.

(** ** Loading the log *)

Section LoadClaims.
Context `{Runtime}.

Lemma loadLogsFromStorage_snapshot {S : Type} (s : S) (w : World) :
  loadLogsFromStorage s w = (Ok (snapshot w), s, afterLoad w).
Proof.
  unfold snapshot, afterLoad. rewrite !loadLogsFromStorage_run.
  destruct (getItem_rejects w); [done|].
  destruct (storage w !! LOGS_KEY) as [text|]; [|done].
  by destruct (JSON_parse text).
Qed.

Lemma afterLoad_same (w : World) :
  storage (afterLoad w) = storage w
  /\ getItem_rejects (afterLoad w) = getItem_rejects w
  /\ setItem_rejects (afterLoad w) = setItem_rejects w
  /\ removeItem_rejects (afterLoad w) = removeItem_rejects w
  /\ alerts (afterLoad w) = alerts w.
Proof.
  unfold afterLoad. rewrite loadLogsFromStorage_run.
  destruct (getItem_rejects w) eqn:E; [by rewrite <- E|].
  destruct (storage w !! LOGS_KEY) as [text|]; [|by rewrite <- E].
  destruct (JSON_parse text); by rewrite <- E.
Qed.

Lemma snapshot_same (w1 w2 : World) :
  storage w1 = storage w2 ->
  getItem_rejects w1 = getItem_rejects w2 ->
  snapshot w1 = snapshot w2.
Proof.
  intros Hs Hg. unfold snapshot. rewrite !loadLogsFromStorage_run, Hs, Hg.
  destruct (getItem_rejects w2); [done|].
  destruct (storage w2 !! LOGS_KEY) as [text|]; [|done].
  by destruct (JSON_parse text).
Qed.

Lemma snapshot_cleared (w : World) :
  storage w !! LOGS_KEY = None -> snapshot w = [].
Proof.
  intros Hs. unfold snapshot. rewrite loadLogsFromStorage_run, Hs.
  by destruct (getItem_rejects w).
Qed.

(** C6: the read of the log gives an empty log when nothing is stored;
    when the stored text does not parse, the failure is caught and
    reported, and the read gives an empty log; when the storage itself
    fails, likewise. In every case the read returns, leaves the storage as
    it was, and what it returns is the whole parsed log or an empty one. *)
Theorem loadLogsFromStorage_whole_or_empty {S : Type} (s : S) (w : World) :
  (getItem_rejects w = false -> storage w !! LOGS_KEY = None ->
     loadLogsFromStorage s w = (Ok [], s, w))
  /\ (forall text,
        getItem_rejects w = false -> storage w !! LOGS_KEY = Some text ->
        JSON_parse text = None ->
        loadLogsFromStorage s w = (Ok [], s, errorLogged "Error reading logs:" w))
  /\ (getItem_rejects w = true ->
        loadLogsFromStorage s w = (Ok [], s, errorLogged "Error reading logs:" w))
  /\ (exists logs,
        (loadLogsFromStorage s w).1.1 = Ok logs
        /\ (logs = []
            \/ exists text,
                 storage w !! LOGS_KEY = Some text /\ JSON_parse text = Some logs))
  /\ storage (loadLogsFromStorage s w).2 = storage w.
Proof.
  rewrite loadLogsFromStorage_run. repeat split.
  - by intros -> ->.
  - by intros text -> -> ->.
  - by intros ->.
  - destruct (getItem_rejects w); [by exists []; split; [|left]|].
    destruct (storage w !! LOGS_KEY) as [text|]; [|by exists []; split; [|left]].
    destruct (JSON_parse text) as [logs|] eqn:E; [|by exists []; split; [|left]].
    exists logs. split; [done|]. right. by exists text.
  - destruct (getItem_rejects w); [done|].
    destruct (storage w !! LOGS_KEY) as [text|]; [|done].
    by destruct (JSON_parse text).
Qed.

End LoadClaims.

Lemma loadLogsFromStorage_whole_or_empty_witness :
  (getItem_rejects (Sample.world {[ LOGS_KEY := Sample.brokenJson ]}) = false
   /\ storage (Sample.world {[ LOGS_KEY := Sample.brokenJson ]}) !! LOGS_KEY
      = Some Sample.brokenJson
   /\ JSON_parse (Runtime := Sample.runtime web [Sample.threeLogs] true)
        Sample.brokenJson = None)
  /\ loadLogsFromStorage (H := Sample.runtime web [Sample.threeLogs] true) tt
       (Sample.world {[ LOGS_KEY := Sample.brokenJson ]})
     = (Ok [], tt,
        errorLogged "Error reading logs:"
          (Sample.world {[ LOGS_KEY := Sample.brokenJson ]})).
Proof.
  assert (Hstored : storage (Sample.world {[ LOGS_KEY := Sample.brokenJson ]}) !! LOGS_KEY
                    = Some Sample.brokenJson) by reflexivity.
  split; [split; [reflexivity|split; [exact Hstored|reflexivity]]|].
  exact (proj1 (proj2
    (loadLogsFromStorage_whole_or_empty (H := Sample.runtime web [Sample.threeLogs] true)
       tt (Sample.world {[ LOGS_KEY := Sample.brokenJson ]})))
    Sample.brokenJson eq_refl Hstored eq_refl).
Defined.

(** ** The configuration *)

Section ConfigClaims.
Context `{Runtime}.

Lemma saveSettings_unparsed (yamlText selectedTheme : JS.str) (s : App.state)
    (w : World) :
  yaml_load yamlText = None ->
  Settings.saveSettings yamlText selectedTheme s w
    = (Ok tt, s, alerted "Error" "Invalid YAML configuration." w).
Proof. intros Hy. unfold Settings.saveSettings. run. by rewrite Hy. Qed.

Lemma saveSettings_parsed (yamlText selectedTheme : JS.str) (v : jsval)
    (s : App.state) (w : World) :
  yaml_load yamlText = Some v ->
  App.config (Settings.saveSettings yamlText selectedTheme s w).1.2 = v
  /\ (setItem_rejects w = false ->
      Settings.saveSettings yamlText selectedTheme s w
      = (Ok tt,
         App.mk v selectedTheme (negb (App.reloadFlag s)) HomeRoute,
         with_storage
           (<[THEME_KEY := selectedTheme]> (<[CONFIG_KEY := yamlText]> (storage w)))
           w)).
Proof.
  intros Hy. unfold Settings.saveSettings. run. rewrite Hy. simpl.
  destruct (setItem_rejects w) eqn:E; simpl; [done|].
  rewrite E. simpl. split; [done|]. intros _. reflexivity.
Qed.

Lemma loadConfig_run (s : App.state) (w : World) :
  App.loadConfig s w =
    if getItem_rejects w
    then (Ok tt, s, errorLogged "Failed to load configuration" w)
    else match storage w !! CONFIG_KEY with
         | None => (Ok tt, s, w)
         | Some text =>
             if JS.truthy text then
               match yaml_load text with
               | Some v => (Ok tt, App.setConfig v s, w)
               | None => (Ok tt, s, errorLogged "Failed to load configuration" w)
               end
             else (Ok tt, s, w)
         end.
Proof.
  unfold App.loadConfig. run.
  destruct (getItem_rejects w); [done|].
  destruct (storage w !! CONFIG_KEY) as [text|]; [|done].
  destruct (JS.truthy text); [|done].
  by destruct (yaml_load text).
Qed.

(** C9, as the code has it: with no configuration in storage the
    application keeps the built-in default, [Work], [Break], [Exercise];
    a stored or edited text that does not parse is reported (on the
    console at startup, to the user on save) and the configuration in use
    stays; a text that parses is taken as the configuration whatever it
    parses to, with or without a list of activities. *)
Theorem config_kept_only_on_parse_failure (s : App.state) (w : World) :
  App.config App.initial = DEFAULT_CONFIG
  /\ (getItem_rejects w = false -> storage w !! CONFIG_KEY = None ->
        App.loadConfig s w = (Ok tt, s, w))
  /\ (forall text : JS.str,
        getItem_rejects w = false -> storage w !! CONFIG_KEY = Some text ->
        text <> [] -> yaml_load text = None ->
        App.loadConfig s w = (Ok tt, s, errorLogged "Failed to load configuration" w))
  /\ (forall yamlText selectedTheme,
        yaml_load yamlText = None ->
        Settings.saveSettings yamlText selectedTheme s w
        = (Ok tt, s, alerted "Error" "Invalid YAML configuration." w))
  /\ (forall (text : JS.str) v,
        getItem_rejects w = false -> storage w !! CONFIG_KEY = Some text ->
        text <> [] -> yaml_load text = Some v ->
        App.loadConfig s w = (Ok tt, App.setConfig v s, w))
  /\ (forall yamlText selectedTheme v,
        yaml_load yamlText = Some v ->
        App.config (Settings.saveSettings yamlText selectedTheme s w).1.2 = v).
Proof.
  repeat split.
  - intros Hg Hs. by rewrite loadConfig_run, Hg, Hs.
  - intros text Hg Hs Ht Hy. rewrite loadConfig_run, Hg, Hs.
    destruct text; [done|]. simpl. by rewrite Hy.
  - intros yamlText selectedTheme. apply saveSettings_unparsed.
  - intros text v Hg Hs Ht Hy. rewrite loadConfig_run, Hg, Hs.
    destruct text; [done|]. simpl. by rewrite Hy.
  - intros yamlText selectedTheme v Hy. by apply saveSettings_parsed.
Qed.

End ConfigClaims.

(** C9: a text that parses to a mapping without [activities] is saved and
    becomes the configuration; no error is shown and the default that was
    in use is gone. The Home screen of the first variant then shows no
    button, the one of the second variant fails to render. *)
Lemma saveSettings_accepts_config_without_activities :
  Settings.saveSettings (H := Sample.runtime web [] true)
    Sample.themeOnlyText (JS.lit "dark") App.initial (Sample.world ∅)
  = (Ok tt,
     App.mk Sample.themeOnly (JS.lit "dark") true HomeRoute,
     Sample.world {[ CONFIG_KEY := Sample.themeOnlyText; THEME_KEY := JS.lit "dark" ]})
  /\ Sample.themeOnly <> DEFAULT_CONFIG
  /\ activitiesOf Sample.themeOnly = Ok JUndefined
  /\ Variant1.activityButtons Sample.themeOnly = Ok []
  /\ Variant2.activityButtons Sample.themeOnly = Throw TypeError.
Proof.
  split; [reflexivity|]. repeat split. discriminate.
Qed.

Lemma config_kept_only_on_parse_failure_witness :
  yaml_load (Runtime := Sample.runtime web [] true) Sample.brokenYaml = None
  /\ Settings.saveSettings (H := Sample.runtime web [] true)
       Sample.brokenYaml (JS.lit "dark") App.initial (Sample.world ∅)
     = (Ok tt, App.initial,
        alerted "Error" "Invalid YAML configuration." (Sample.world ∅)).
Proof.
  split; [reflexivity|].
  exact (proj1 (proj2 (proj2 (proj2
    (config_kept_only_on_parse_failure (H := Sample.runtime web [] true)
       App.initial (Sample.world ∅)))))
    Sample.brokenYaml (JS.lit "dark") eq_refl).
Defined.

(** ** Export *)

Section ExportClaims.
Context `{Runtime}.

Lemma handleExportLogs1_delivered (now : Z) (s : App.state) (w : World) :
  sinkDelivers1 now (snapshot w) = true ->
  removeItem_rejects w = false ->
  Variant1.handleExportLogs now s w
    = (Ok tt, App.setReloadFlag (negb (App.reloadFlag s)) s,
       alerted "Success" "Logs exported and cleared."
         (with_storage (delete LOGS_KEY (storage (afterLoad w))) (afterLoad w))).
Proof.
  intros Hsink Hrm.
  destruct (afterLoad_same w) as (_ & _ & _ & Hrm' & _). rewrite Hrm in Hrm'.
  unfold Variant1.handleExportLogs, bind at 1, get. simpl.
  unfold bind at 1. rewrite loadLogsFromStorage_snapshot.
  revert Hsink. unfold sinkDelivers1, fileNameAt, Variant1.exportLogsFunction.
  unfold bind, try_catch, delivered, AsyncStorage_removeItem, App.refreshHome,
    modify, ret, throw, Alert_alert, alerted.
  destruct Platform_OS; simpl; intros Hsink.
  - by rewrite Hsink, Hrm'.
  - apply andb_true_iff in Hsink as [-> ->]. by rewrite Hrm'.
  - apply andb_true_iff in Hsink as [-> ->]. by rewrite Hrm'.
Qed.

Lemma handleExportLogs1_failed (now : Z) (s : App.state) (w : World) :
  sinkDelivers1 now (snapshot w) = false ->
  Variant1.handleExportLogs now s w
    = (Ok tt, s,
       alerted "Export Error" "Failed to export logs."
         (errorLogged "Error exporting logs:" (afterLoad w))).
Proof.
  intros Hsink.
  unfold Variant1.handleExportLogs, bind at 1, get. simpl.
  unfold bind at 1. rewrite loadLogsFromStorage_snapshot.
  revert Hsink. unfold sinkDelivers1, fileNameAt, Variant1.exportLogsFunction.
  unfold bind, try_catch, delivered, AsyncStorage_removeItem, App.refreshHome,
    modify, ret, throw, Alert_alert, Alert_title, console_error, alerted, errorLogged.
  destruct Platform_OS; simpl; intros Hsink.
  - by rewrite Hsink.
  - apply andb_false_iff in Hsink as [->| Hs]; [done|].
    destruct (writeAsStringAsync _ _); [|done]. by rewrite Hs.
  - apply andb_false_iff in Hsink as [->| Hs]; [done|].
    destruct (writeAsStringAsync _ _); [|done]. by rewrite Hs.
Qed.

(** The second variant, with the answer to its dialog. *)
Lemma exportAndAnswer_confirmed (now : Z) (pressed : button) (s : App.state)
    (w : World) :
  sinkDelivers2 now (snapshot w) = true ->
  confirmed2 pressed = true ->
  removeItem_rejects w = false ->
  exists w',
    Variant2.exportAndAnswer now pressed s w
      = (Ok tt, App.setReloadFlag (negb (App.reloadFlag s)) s, w')
    /\ storage w' = delete LOGS_KEY (storage w)
    /\ getItem_rejects w' = getItem_rejects w.
Proof.
  intros Hsink Hyes Hrm.
  destruct (afterLoad_same w) as (Hst & Hg & _ & Hrm' & _). rewrite Hrm in Hrm'.
  unfold Variant2.exportAndAnswer, bind at 1, get. simpl.
  unfold Variant2.handleExportLogs, bind at 1, bind at 1, get. simpl.
  unfold bind at 1. rewrite loadLogsFromStorage_snapshot.
  revert Hsink Hyes.
  unfold sinkDelivers2, confirmed2, fileNameAt, Variant2.exportLogsFunction,
    Variant2.deleteLogsDialog.
  unfold bind, try_catch, delivered, AsyncStorage_removeItem, App.refreshHome,
    modify, ret, throw, Alert_alert, Alert_title, console_error.
  destruct Platform_OS; simpl; intros Hsink Hyes.
  - rewrite Hsink, Hrm'. eexists. split; [reflexivity|]. simpl. by rewrite Hst, Hg.
  - destruct pressed; [done|]. rewrite Hsink. simpl. rewrite Hrm'.
    eexists. split; [reflexivity|]. simpl. by rewrite Hst, Hg.
  - destruct pressed; [done|]. apply andb_true_iff in Hsink as [-> ->]. simpl.
    rewrite Hrm'. eexists. split; [reflexivity|]. simpl. by rewrite Hst, Hg.
Qed.

Lemma exportAndAnswer_failed (now : Z) (pressed : button) (s : App.state)
    (w : World) :
  sinkDelivers2 now (snapshot w) = false ->
  Variant2.exportAndAnswer now pressed s w
    = (Ok tt, s,
       alerted "Export Error" "Failed to export logs."
         (errorLogged "Error exporting logs:" (afterLoad w))).
Proof.
  intros Hsink.
  unfold Variant2.exportAndAnswer, bind at 1, get. simpl.
  unfold Variant2.handleExportLogs, bind at 1, bind at 1, get. simpl.
  unfold bind at 1. rewrite loadLogsFromStorage_snapshot.
  revert Hsink.
  unfold sinkDelivers2, fileNameAt, Variant2.exportLogsFunction.
  unfold bind, try_catch, delivered, AsyncStorage_removeItem, App.refreshHome,
    modify, ret, throw, Alert_alert, Alert_title, console_error, alerted, errorLogged.
  destruct Platform_OS; simpl; intros Hsink.
  - by rewrite Hsink.
  - by rewrite Hsink.
  - apply andb_false_iff in Hsink as [->| Hs]; [done|].
    destruct (writeAsStringAsync _ _); [|done]. by rewrite Hs.
Qed.

(** On a phone, the second variant keeps the log when the user answers
    that the logs were not exported. *)
Lemma exportAndAnswer_declined (now : Z) (s : App.state) (w : World) :
  Platform_OS <> web ->
  sinkDelivers2 now (snapshot w) = true ->
  Variant2.exportAndAnswer now No s w
    = (Ok tt, s,
       alerted "Delete Logs" "Click yes if you have exported the logs."
         (afterLoad w)).
Proof.
  intros Hos Hsink.
  unfold Variant2.exportAndAnswer, bind at 1, get. simpl.
  unfold Variant2.handleExportLogs, bind at 1, bind at 1, get. simpl.
  unfold bind at 1. rewrite loadLogsFromStorage_snapshot.
  revert Hos Hsink.
  unfold sinkDelivers2, fileNameAt, Variant2.exportLogsFunction,
    Variant2.deleteLogsDialog.
  unfold bind, try_catch, delivered, AsyncStorage_removeItem, App.refreshHome,
    modify, ret, throw, Alert_alert, Alert_title, console_error, alerted.
  destruct Platform_OS; simpl; intros Hos Hsink.
  - done.
  - by rewrite Hsink.
  - by apply andb_true_iff in Hsink as [-> ->].
Qed.

End ExportClaims.

Section ExportRendering.
Context `{Runtime}.

Lemma withRender_cleared {A} (handler : M App.state A) (r : result A)
    (sc : Screens) (w w' : World) :
  handler (app sc) w
    = (r, App.setReloadFlag (negb (App.reloadFlag (app sc))) (app sc), w') ->
  storage w' = delete LOGS_KEY (storage w) ->
  storage (withRender handler sc w).2 !! LOGS_KEY = None
  /\ snapshot (withRender handler sc w).2 = []
  /\ Home.logs (home (withRender handler sc w).1.2) = [].
Proof.
  intros Hrun Hst. unfold withRender. rewrite Hrun.
  unfold rerenderHome. simpl.
  replace (Bool.eqb (App.reloadFlag (app sc)) (negb (App.reloadFlag (app sc))))
    with false by (by destruct (App.reloadFlag (app sc))).
  unfold Home.reload, bind. rewrite loadLogsFromStorage_snapshot.
  unfold modify. simpl.
  assert (Hgone : storage w' !! LOGS_KEY = None)
    by (rewrite Hst; apply lookup_delete_eq).
  destruct (afterLoad_same w') as (Hst' & Hg' & _).
  repeat split.
  - by rewrite Hst'.
  - rewrite <- (snapshot_cleared w' Hgone). by apply snapshot_same.
  - by apply snapshot_cleared.
Qed.

Lemma withRender_kept {A} (handler : M App.state A) (r : result A)
    (sc : Screens) (w w' : World) :
  handler (app sc) w = (r, app sc, w') ->
  storage w' = storage w ->
  getItem_rejects w' = getItem_rejects w ->
  storage (withRender handler sc w).2 = storage w
  /\ snapshot (withRender handler sc w).2 = snapshot w
  /\ (withRender handler sc w).1.2 = sc.
Proof.
  intros Hrun Hst Hg. unfold withRender. rewrite Hrun.
  unfold rerenderHome. rewrite Bool.eqb_reflx. unfold ret. simpl.
  repeat split; [done| by apply snapshot_same | by destruct sc].
Qed.

(** C1: in the first and in the second variant, for every log and every
    sink: when the export goes through (the sink takes the log, the user
    of a phone with the second variant confirms that the logs were
    exported, and the storage accepts the removal), the stored log is
    removed, a read of the log gives an empty one and the Home screen shows
    an empty log; when the sink fails, the storage, what a read of the log
    gives, and the screens are what they were before the export. *)
Theorem export_clears_only_after_delivery (now : Z) (pressed : button)
    (sc : Screens) (w : World) :
  let run1 := withRender (Variant1.handleExportLogs now) sc w in
  let run2 := withRender (Variant2.exportAndAnswer now pressed) sc w in
  (sinkDelivers1 now (snapshot w) = true -> removeItem_rejects w = false ->
     storage run1.2 !! LOGS_KEY = None
     /\ snapshot run1.2 = []
     /\ Home.logs (home run1.1.2) = [])
  /\ (sinkDelivers1 now (snapshot w) = false ->
     storage run1.2 = storage w /\ snapshot run1.2 = snapshot w /\ run1.1.2 = sc)
  /\ (sinkDelivers2 now (snapshot w) = true -> confirmed2 pressed = true ->
      removeItem_rejects w = false ->
     storage run2.2 !! LOGS_KEY = None
     /\ snapshot run2.2 = []
     /\ Home.logs (home run2.1.2) = [])
  /\ (sinkDelivers2 now (snapshot w) = false ->
     storage run2.2 = storage w /\ snapshot run2.2 = snapshot w /\ run2.1.2 = sc).
Proof.
  intros run1 run2. subst run1 run2.
  destruct (afterLoad_same w) as (Hst & Hg & _).
  split; [|split; [|split]].
  - intros Hsink Hrm.
    eapply withRender_cleared.
    + by apply handleExportLogs1_delivered.
    + simpl. by rewrite Hst.
  - intros Hsink.
    eapply withRender_kept.
    + by apply handleExportLogs1_failed.
    + done.
    + done.
  - intros Hsink Hyes Hrm.
    destruct (exportAndAnswer_confirmed now pressed (app sc) w Hsink Hyes Hrm)
      as (w' & Hrun & Hst' & _).
    by eapply withRender_cleared.
  - intros Hsink.
    eapply withRender_kept.
    + by apply exportAndAnswer_failed.
    + done.
    + done.
Qed.

End ExportRendering.

Lemma export_clears_only_after_delivery_witness :
  (sinkDelivers1 (H := Sample.phone) 120000
     (snapshot (H := Sample.phone) (Sample.world Sample.stored)) = true
   /\ removeItem_rejects (Sample.world Sample.stored) = false)
  /\ storage (withRender (H := Sample.phone)
                (Variant1.handleExportLogs (H := Sample.phone) 120000)
                Sample.screens (Sample.world Sample.stored)).2 !! LOGS_KEY = None.
Proof.
  split; [split; reflexivity|].
  exact (proj1 (proj1
    (export_clears_only_after_delivery (H := Sample.phone)
       120000 Yes Sample.screens (Sample.world Sample.stored))
    eq_refl eq_refl)).
Defined.

(** ** The application at work *)

(** Work, a break and a comment: the comment goes to the last entry. *)
Example work_break_comment :
  Home.logs (Sample.workBreakComment (H := Sample.phone) Home.initial
               (Sample.world ∅)).1.2
  = [mkLog (JS.lit "Work") (JS.lit "2025-04-09T15:00:00.000Z") (Some []);
     mkLog (JS.lit "Break") (JS.lit "2025-04-09T15:30:00.000Z")
           (Some [JS.lit "short break"])].
Proof. reflexivity. Qed.

(** What the storage holds after it. *)
Example work_break_comment_stored :
  storage (Sample.workBreakComment (H := Sample.phone) Home.initial
             (Sample.world ∅)).2 !! LOGS_KEY
  = Some (Sample.stringify
            [mkLog (JS.lit "Work") (JS.lit "2025-04-09T15:00:00.000Z") (Some []);
             mkLog (JS.lit "Break") (JS.lit "2025-04-09T15:30:00.000Z")
                   (Some [JS.lit "short break"])]).
Proof. reflexivity. Qed.

(** The first start: nothing stored, the default configuration and theme. *)
Example first_start :
  App.startup (H := Sample.phone) App.initial (Sample.world ∅)
  = (Ok tt, App.initial, Sample.world ∅)
  /\ Variant1.activityButtons (App.config App.initial)
     = Ok [JStr (JS.lit "Work"); JStr (JS.lit "Break"); JStr (JS.lit "Exercise")].
Proof. split; reflexivity. Qed.

(** A press on the first row shown, then 'Gym' and three comments typed and
    saved: the last entry recorded is the one rewritten. *)
Example edit_first_row :
  Logs.pressRow 0 (Logs.setLogs Sample.threeLogs Logs.initial) (Sample.world ∅)
  = (Ok tt, Logs.mk Sample.threeLogs true (Some 2) (JS.lit "Work") [],
     Sample.world ∅)
  /\ Logs.logs (Logs.saveEditedLog (H := Sample.phone)
                  (Sample.typed "Gym" "warmup, cardio, stretch")
                  (Sample.world ∅)).1.2
     = [Sample.work 0;
        mkLog (JS.lit "Break") (Sample.isoString 60000) (Some [JS.lit "tea"]);
        mkLog (JS.lit "Gym") (Sample.isoString 120000)
              (Some [JS.lit "warmup"; JS.lit "cardio"; JS.lit "stretch"])].
Proof. split; reflexivity. Qed.

(** On the iPhone of the second variant the answer decides: after 'No' the
    three entries are still stored and shown, after 'Yes' they are gone. *)
Example export_answer_no :
  withRender (H := Sample.phone)
    (Variant2.exportAndAnswer (H := Sample.phone) 120000 No)
    Sample.screens (Sample.world Sample.stored)
  = (Ok tt, Sample.screens,
     alerted "Delete Logs" "Click yes if you have exported the logs."
       (Sample.world Sample.stored)).
Proof. reflexivity. Qed.

Example export_answer_yes :
  withRender (H := Sample.phone)
    (Variant2.exportAndAnswer (H := Sample.phone) 120000 Yes)
    Sample.screens (Sample.world Sample.stored)
  = (Ok tt,
     mkScreens (App.setReloadFlag true App.initial) (Home.mk [] false []),
     alertedTitle "Logs cleared."
       (alerted "Delete Logs" "Click yes if you have exported the logs."
          (Sample.world ∅))).
Proof. reflexivity. Qed.

(** * More of the code *)

(** ** Comments, reloads and the keys of the storage *)

Section HomeExtras.
Context `{Runtime}.

Lemma alter_last {A} (f : A -> A) (l : list A) (x : A) :
  alter f (List.length (l ++ [x]) - 1)%nat (l ++ [x]) = l ++ [f x].
Proof.
  rewrite List.length_app. simpl.
  replace (List.length l + 1 - 1)%nat with (List.length l + 0)%nat by lia.
  by rewrite alter_app_r.
Qed.

(** X1: on a log that is not empty, a comment, whatever its text, goes to
    the end of the comments of the entry recorded last, or starts them when
    the entry has none; the activity and the timestamp of that entry and the
    entries before it stay, the input field is cleared, the dialog closes
    and no alert is shown. *)
Theorem addComment_appends_to_last (title : string) (older : list LogRecord)
    (latest : LogRecord) (visible : bool) (text : JS.str) (w : World) :
  let s := Home.mk (older ++ [latest]) visible text in
  let after := (Home.addCommentWith title s w).1.2 in
  (Home.addCommentWith title s w).1.1 = Ok tt
  /\ Home.logs after
     = older ++ [mkLog (activity latest) (timestamp latest)
                       (Some (match comments latest with
                              | Some cs => cs ++ [text]
                              | None => [text]
                              end))]
  /\ Home.commentText after = []
  /\ Home.commentModalVisible after = false
  /\ alerts (Home.addCommentWith title s w).2 = alerts w.
Proof.
  intros s after. subst s after.
  rewrite addCommentWith_nonempty by (simpl; by destruct older).
  simpl. rewrite alter_last. unfold Home.pushComment, set_comments.
  repeat split.
  - by destruct (comments latest).
  - by destruct (setItem_rejects w).
Qed.

Lemma reload_run (s : Home.state) (w : World) :
  Home.reload s w = (Ok tt, Home.setLogs (snapshot w) s, afterLoad w).
Proof. unfold Home.reload, bind. by rewrite loadLogsFromStorage_snapshot. Qed.

Lemma snapshot_stored (w : World) (text : JS.str) (logs : list LogRecord) :
  getItem_rejects w = false ->
  storage w !! LOGS_KEY = Some text ->
  JSON_parse text = Some logs ->
  snapshot w = logs.
Proof.
  intros Hg Hs Hp. unfold snapshot.
  by rewrite loadLogsFromStorage_run, Hg, Hs, Hp.
Qed.

(** X2: when the storage works and [JSON.parse] gives back the log that
    [JSON.stringify] wrote, an activity recorded and then read back by the
    reload of the Home screen is on the screen as it was recorded, after
    the entries that were there. *)
Theorem recorded_entry_survives_reload (activity : JS.str) (now : Z)
    (s : Home.state) (w : World) :
  setItem_rejects w = false ->
  getItem_rejects w = false ->
  JSON_parse (JSON_stringify (Home.logs s ++ [newEntry (activity, now)]))
    = Some (Home.logs s ++ [newEntry (activity, now)]) ->
  (recordThenReload activity now s w).1.1 = Ok tt
  /\ Home.logs (recordThenReload activity now s w).1.2
     = Home.logs s ++ [newEntry (activity, now)].
Proof.
  intros Hw Hg Hp. unfold recordThenReload, bind.
  rewrite recordActivity_run, Hw, reload_run. simpl. split; [done|].
  eapply snapshot_stored; [done| |exact Hp]. simpl. apply lookup_insert_eq.
Qed.

(** X3: when the storage refuses the write, the entry that
    [recordActivity] put on the screen is gone at the next reload: the
    screen then shows what the storage held before. *)
Theorem unsaved_entry_lost_at_reload (activity : JS.str) (now : Z)
    (s : Home.state) (w : World) :
  setItem_rejects w = true ->
  Home.logs (Home.recordActivity activity now s w).1.2
    = Home.logs s ++ [newEntry (activity, now)]
  /\ Home.logs (recordThenReload activity now s w).1.2 = snapshot w.
Proof.
  intros Hw. unfold recordThenReload, bind.
  rewrite recordActivity_run, Hw, reload_run. simpl. split; [done|].
  by apply snapshot_same.
Qed.

End HomeExtras.

Lemma recorded_entry_survives_reload_witness :
  (setItem_rejects (Sample.world ∅) = false
   /\ getItem_rejects (Sample.world ∅) = false
   /\ JSON_parse (Runtime := Sample.runtime web [[Sample.work 0]] true)
        (JSON_stringify (Runtime := Sample.runtime web [[Sample.work 0]] true)
           (Home.logs Home.initial
              ++ [newEntry (H := Sample.runtime web [[Sample.work 0]] true)
                    (JS.lit "Work", 0)]))
      = Some [Sample.work 0])
  /\ Home.logs (recordThenReload (H := Sample.runtime web [[Sample.work 0]] true)
                  (JS.lit "Work") 0 Home.initial (Sample.world ∅)).1.2
     = [Sample.work 0].
Proof.
  split; [split; [reflexivity|split; reflexivity]|].
  exact (proj2 (recorded_entry_survives_reload
                  (H := Sample.runtime web [[Sample.work 0]] true)
                  (JS.lit "Work") 0 Home.initial (Sample.world ∅)
                  eq_refl eq_refl eq_refl)).
Defined.

Lemma unsaved_entry_lost_at_reload_witness :
  setItem_rejects (Sample.fullDisk Sample.stored) = true
  /\ Home.logs (recordThenReload (H := Sample.phone) (JS.lit "Work") 180000
                  (Home.mk Sample.threeLogs false [])
                  (Sample.fullDisk Sample.stored)).1.2
     = Sample.threeLogs.
Proof.
  split; [reflexivity|].
  exact (proj2 (unsaved_entry_lost_at_reload (H := Sample.phone)
                  (JS.lit "Work") 180000 (Home.mk Sample.threeLogs false [])
                  (Sample.fullDisk Sample.stored) eq_refl)).
Defined.

(** ** More on the export *)

Ltac export_run :=
  unfold Variant1.handleExportLogs, Variant2.exportAndAnswer,
    Variant2.handleExportLogs, Variant3.handleExportLogs,
    Variant1.exportLogsFunction, Variant2.exportLogsFunction,
    Variant2.deleteLogsDialog, Variant3.exportLogsFunction,
    sinkDelivers1, sinkDelivers2, sinkDelivers3, confirmed2, fileNameAt,
    App.refreshHome in *;
  unfold bind, get; simpl;
  rewrite ?loadLogsFromStorage_snapshot;
  unfold try_catch, bind, delivered, AsyncStorage_removeItem, modify, ret,
    throw, Alert_alert, Alert_title, console_error, alerted, alertedTitle,
    errorLogged;
  simpl.

Section ExportExtras.
Context `{Runtime}.

Lemma replaceAll_removes (c d : N) (s : JS.str) :
  d <> c -> Forall (fun x => x <> c) (JS.replaceAll c d s).
Proof.
  intros Hd. unfold JS.replaceAll.
  induction s as [|x s IH]; simpl; constructor; [|done].
  by destruct (N.eqb_spec x c).
Qed.

(** X4: the name of the exported file of the first and second variant has
    no colon in it, whatever text [toISOString] gives for the instant, and
    is as long as that text and the nineteen code units around it. *)
Theorem fileName_has_no_colon (now : Z) :
  Forall (fun x => x <> JS.colon) (fileNameAt now)
  /\ List.length (fileNameAt now) = (19 + List.length (toISOString now))%nat.
Proof.
  unfold fileNameAt. split.
  - apply Forall_app. split; [by repeat constructor|].
    apply Forall_app. split; [by apply replaceAll_removes|by repeat constructor].
  - rewrite !List.length_app. unfold JS.replaceAll. rewrite List.length_map.
    simpl. lia.
Qed.

(** X5: in the first variant, when the sink has taken the log but the
    storage refuses the removal, the log stays stored and on the screen,
    [reloadFlag] is not toggled, and the user is told that the export
    failed. *)
Theorem export1_removal_refused (now : Z) (sc : Screens) (w : World) :
  sinkDelivers1 now (snapshot w) = true ->
  removeItem_rejects w = true ->
  withRender (Variant1.handleExportLogs now) sc w
  = (Ok tt, sc,
     alerted "Export Error" "Failed to export logs."
       (errorLogged "Error exporting logs:" (afterLoad w)))
  /\ storage (afterLoad w) = storage w.
Proof.
  intros Hsink Hrm.
  destruct (afterLoad_same w) as (Hst & _ & _ & Hrm' & _). rewrite Hrm in Hrm'.
  split; [|done]. unfold withRender.
  assert (Hrun : Variant1.handleExportLogs now (app sc) w
                 = (Ok tt, app sc,
                    alerted "Export Error" "Failed to export logs."
                      (errorLogged "Error exporting logs:" (afterLoad w)))).
  { revert Hsink. export_run.
    destruct Platform_OS; simpl; intros Hsink.
    - rewrite Hsink. simpl. by rewrite Hrm'.
    - apply andb_true_iff in Hsink as [-> ->]. simpl. by rewrite Hrm'.
    - apply andb_true_iff in Hsink as [-> ->]. simpl. by rewrite Hrm'. }
  rewrite Hrun. unfold rerenderHome. rewrite Bool.eqb_reflx. unfold ret.
  by destruct sc.
Qed.

(** X6: on a phone, the export function of the second variant removes
    nothing itself: it leaves the storage and the state of the application
    as they are and returns with the 'Delete Logs' dialog to come exactly
    when the sink took the log; on the web it never leaves a dialog behind. *)
Theorem export2_on_phone_waits (now : Z) (s : App.state) (w : World) :
  (Platform_OS <> web ->
     (Variant2.handleExportLogs now s w).1.1
       = Ok (if sinkDelivers2 now (snapshot w) then DeleteLogsDialog else NoDialog)
     /\ (Variant2.handleExportLogs now s w).1.2 = s
     /\ storage (Variant2.handleExportLogs now s w).2 = storage w)
  /\ (Platform_OS = web ->
     (Variant2.handleExportLogs now s w).1.1 = Ok NoDialog).
Proof.
  destruct (afterLoad_same w) as (Hst & _).
  split; intros Hos; export_run; destruct Platform_OS; try done; simpl.
  - by destruct (Share_share _).
  - destruct (writeAsStringAsync _ _); simpl; [|done].
    by destruct (Share_share _).
  - destruct (download _ _); simpl; [|done].
    by destruct (removeItem_rejects (afterLoad w)).
Qed.

(** X7: on a phone with the second variant, after the answer 'No' the log
    is still stored, the screens are as they were, and the only alert
    shown is the question itself. *)
Theorem export2_declined (now : Z) (sc : Screens) (w : World) :
  Platform_OS <> web ->
  sinkDelivers2 now (snapshot w) = true ->
  withRender (Variant2.exportAndAnswer now No) sc w
  = (Ok tt, sc,
     alerted "Delete Logs" "Click yes if you have exported the logs."
       (afterLoad w))
  /\ storage (afterLoad w) = storage w.
Proof.
  intros Hos Hsink. destruct (afterLoad_same w) as (Hst & _).
  split; [|done]. unfold withRender.
  rewrite (exportAndAnswer_declined now (app sc) w Hos Hsink).
  unfold rerenderHome. rewrite Bool.eqb_reflx. unfold ret. by destruct sc.
Qed.

(** X8: on a phone with the second variant, after the answer 'Yes', when
    the storage refuses the removal the log stays stored and on the screen
    and the user is told that clearing failed. *)
Theorem export2_confirmed_removal_refused (now : Z) (sc : Screens) (w : World) :
  Platform_OS <> web ->
  sinkDelivers2 now (snapshot w) = true ->
  removeItem_rejects w = true ->
  withRender (Variant2.exportAndAnswer now Yes) sc w
  = (Ok tt, sc,
     alerted "Error" "Failed to clear logs."
       (errorLogged "Error clearing logs:"
          (alerted "Delete Logs" "Click yes if you have exported the logs."
             (afterLoad w))))
  /\ storage (afterLoad w) = storage w.
Proof.
  intros Hos Hsink Hrm.
  destruct (afterLoad_same w) as (Hst & _ & _ & Hrm' & _). rewrite Hrm in Hrm'.
  split; [|done]. unfold withRender.
  assert (Hrun : Variant2.exportAndAnswer now Yes (app sc) w
                 = (Ok tt, app sc,
                    alerted "Error" "Failed to clear logs."
                      (errorLogged "Error clearing logs:"
                         (alerted "Delete Logs"
                            "Click yes if you have exported the logs."
                            (afterLoad w))))).
  { revert Hos Hsink. export_run.
    destruct Platform_OS; simpl; intros Hos Hsink; [done| |].
    - rewrite Hsink. simpl. by rewrite Hrm'.
    - apply andb_true_iff in Hsink as [-> ->]. simpl. by rewrite Hrm'. }
  rewrite Hrun. unfold rerenderHome. rewrite Bool.eqb_reflx. unfold ret.
  by destruct sc.
Qed.

End ExportExtras.

Section KeysExtras.
Context `{Runtime}.

Ltac export_storage Hst :=
  export_run; destruct Platform_OS; simpl;
  repeat (match goal with
          | |- context [if ?b then _ else _] => destruct b; simpl
          | |- context [match ?p with No => _ | Yes => _ end] => destruct p; simpl
          end);
  rewrite ?lookup_delete_ne by done; by rewrite ?Hst.

(** X9: the operations on the log and the three exports read and write the
    key of the log only: every other key of the storage, the configuration
    and the theme among them, holds after each of them what it held
    before. *)
Theorem log_operations_touch_one_key (k : string) (w : World) :
  k <> LOGS_KEY ->
  (forall activity now s,
     storage (Home.recordActivity activity now s w).2 !! k = storage w !! k)
  /\ (forall title s,
        storage (Home.addCommentWith title s w).2 !! k = storage w !! k)
  /\ (forall s, storage (Logs.saveEditedLog s w).2 !! k = storage w !! k)
  /\ (forall now s,
        storage (Variant1.handleExportLogs now s w).2 !! k = storage w !! k)
  /\ (forall now pressed s,
        storage (Variant2.exportAndAnswer now pressed s w).2 !! k = storage w !! k)
  /\ (forall s, storage (Variant3.handleExportLogs s w).2 !! k = storage w !! k).
Proof.
  intros Hk. assert (Hk' : LOGS_KEY <> k) by done.
  destruct (afterLoad_same w) as (Hst & _).
  repeat split.
  - intros activity now s. rewrite recordActivity_run. simpl.
    destruct (setItem_rejects w); simpl; [done|]. by rewrite lookup_insert_ne.
  - intros title s. destruct (Home.logs s) as [|r l] eqn:Hl.
    + by rewrite addCommentWith_empty.
    + rewrite addCommentWith_nonempty by (by rewrite Hl). simpl.
      destruct (setItem_rejects w); simpl; [done|]. by rewrite lookup_insert_ne.
  - intros s. destruct (Logs.currentEditingIndex s) as [i|] eqn:Hi.
    + destruct (Logs.at_index (Logs.logs s) i) as [entry|] eqn:He.
      * rewrite (saveEditedLog_run s w i entry Hi He). simpl.
        destruct (setItem_rejects w); simpl; [done|]. by rewrite lookup_insert_ne.
      * unfold Logs.saveEditedLog. run. by rewrite Hi, He.
    + unfold Logs.saveEditedLog. run. by rewrite Hi.
  - intros now s. export_storage Hst.
  - intros now pressed s. export_storage Hst.
  - intros s. export_storage Hst.
Qed.

(** X10: 'Save Settings' never touches the log: the key of the log holds
    after it what it held before, and a read of the log gives the same,
    whether the text parses or not and whether the storage takes the
    writes or not. *)
Theorem saveSettings_keeps_the_log (yamlText selectedTheme : JS.str)
    (s : App.state) (w : World) :
  storage (Settings.saveSettings yamlText selectedTheme s w).2 !! LOGS_KEY
    = storage w !! LOGS_KEY
  /\ snapshot (Settings.saveSettings yamlText selectedTheme s w).2 = snapshot w.
Proof.
  assert (Hrun : storage (Settings.saveSettings yamlText selectedTheme s w).2 !! LOGS_KEY
                 = storage w !! LOGS_KEY
                 /\ getItem_rejects (Settings.saveSettings yamlText selectedTheme s w).2
                    = getItem_rejects w).
  { unfold Settings.saveSettings. run.
    destruct (yaml_load yamlText); simpl; [|done].
    destruct (setItem_rejects w) eqn:E; simpl; [done|]. rewrite E. simpl.
    split; [|done]. by rewrite !lookup_insert_ne. }
  destruct Hrun as [Hst Hg]. split; [done|].
  unfold snapshot. rewrite !loadLogsFromStorage_run, Hst, Hg.
  destruct (getItem_rejects w); [done|].
  destruct (storage w !! LOGS_KEY) as [text|]; [|done].
  by destruct (JSON_parse text).
Qed.

End KeysExtras.

Lemma log_operations_touch_one_key_witness :
  CONFIG_KEY <> LOGS_KEY
  /\ storage (Variant1.handleExportLogs (H := Sample.phone) 120000 App.initial
                (Sample.world (<[CONFIG_KEY := Sample.gymText]> Sample.stored))).2
       !! CONFIG_KEY
     = Some Sample.gymText.
Proof.
  assert (Hk : CONFIG_KEY <> LOGS_KEY) by discriminate.
  split; [exact Hk|].
  destruct (log_operations_touch_one_key (H := Sample.phone) CONFIG_KEY
              (Sample.world (<[CONFIG_KEY := Sample.gymText]> Sample.stored)) Hk)
    as (_ & _ & _ & Hexp & _).
  rewrite Hexp. reflexivity.
Defined.

Lemma export1_removal_refused_witness :
  (sinkDelivers1 (H := Sample.phone) 120000
     (snapshot (H := Sample.phone) (Sample2.stuck Sample.stored)) = true
   /\ removeItem_rejects (Sample2.stuck Sample.stored) = true)
  /\ storage (withRender (H := Sample.phone)
                (Variant1.handleExportLogs (H := Sample.phone) 120000)
                Sample.screens (Sample2.stuck Sample.stored)).2 !! LOGS_KEY
     = Some (Sample.stringify Sample.threeLogs).
Proof.
  split; [split; reflexivity|].
  rewrite (proj1 (export1_removal_refused (H := Sample.phone) 120000
                    Sample.screens (Sample2.stuck Sample.stored) eq_refl eq_refl)).
  reflexivity.
Defined.

Lemma export2_on_phone_waits_witness :
  Platform_OS (Runtime := Sample.phone) <> web
  /\ (Variant2.handleExportLogs (H := Sample.phone) 120000 App.initial
        (Sample.world Sample.stored)).1.1 = Ok DeleteLogsDialog.
Proof.
  assert (Hos : Platform_OS (Runtime := Sample.phone) <> web) by discriminate.
  split; [exact Hos|].
  exact (proj1 (proj1 (export2_on_phone_waits (H := Sample.phone) 120000
                         App.initial (Sample.world Sample.stored)) Hos)).
Defined.

Lemma export2_declined_witness :
  (Platform_OS (Runtime := Sample.phone) <> web
   /\ sinkDelivers2 (H := Sample.phone) 120000
        (snapshot (H := Sample.phone) (Sample.world Sample.stored)) = true)
  /\ storage (withRender (H := Sample.phone)
                (Variant2.exportAndAnswer (H := Sample.phone) 120000 No)
                Sample.screens (Sample.world Sample.stored)).2 !! LOGS_KEY
     = Some (Sample.stringify Sample.threeLogs).
Proof.
  assert (Hos : Platform_OS (Runtime := Sample.phone) <> web) by discriminate.
  split; [split; [exact Hos|reflexivity]|].
  rewrite (proj1 (export2_declined (H := Sample.phone) 120000
                    Sample.screens (Sample.world Sample.stored) Hos eq_refl)).
  reflexivity.
Defined.

Lemma export2_confirmed_removal_refused_witness :
  (Platform_OS (Runtime := Sample.phone) <> web
   /\ sinkDelivers2 (H := Sample.phone) 120000
        (snapshot (H := Sample.phone) (Sample2.stuck Sample.stored)) = true
   /\ removeItem_rejects (Sample2.stuck Sample.stored) = true)
  /\ storage (withRender (H := Sample.phone)
                (Variant2.exportAndAnswer (H := Sample.phone) 120000 Yes)
                Sample.screens (Sample2.stuck Sample.stored)).2 !! LOGS_KEY
     = Some (Sample.stringify Sample.threeLogs).
Proof.
  assert (Hos : Platform_OS (Runtime := Sample.phone) <> web) by discriminate.
  split; [split; [exact Hos|split; reflexivity]|].
  rewrite (proj1 (export2_confirmed_removal_refused (H := Sample.phone) 120000
                    Sample.screens (Sample2.stuck Sample.stored) Hos eq_refl eq_refl)).
  reflexivity.
Defined.

Section Export3.
Context `{Runtime}.

Lemma handleExportLogs3_run (s : App.state) (w : World) :
  Variant3.handleExportLogs s w =
    if sinkDelivers3 (snapshot w) && negb (removeItem_rejects w) then
      (Ok tt, App.setReloadFlag (negb (App.reloadFlag s)) s,
       alerted "Success" "Logs exported and cleared."
         (with_storage (delete LOGS_KEY (storage (afterLoad w))) (afterLoad w)))
    else
      (Ok tt, s,
       alerted "Export Error" "Failed to export logs."
         (errorLogged "Error exporting logs:" (afterLoad w))).
Proof.
  destruct (afterLoad_same w) as (_ & _ & _ & Hrm & _).
  export_run. rewrite <- Hrm.
  destruct Platform_OS; simpl.
  - destruct (download _ _); simpl; [|done].
    by destruct (removeItem_rejects (afterLoad w)).
  - destruct (writeAsStringAsync _ _); simpl; [|done].
    destruct (Share_share _); simpl; [|done].
    by destruct (removeItem_rejects (afterLoad w)).
  - destruct (writeAsStringAsync _ _); simpl; [|done].
    destruct (Share_share _); simpl; [|done].
    by destruct (removeItem_rejects (afterLoad w)).
Qed.

(** X11: the export of the third variant, which always names the file
    [activity_logs.json]: when the sink takes the log and the storage
    accepts the removal, the stored log is removed, a read of the log gives
    an empty one and the Home screen shows an empty log; when the sink
    fails or the removal is refused, the storage and the screens are what
    they were and the user is told that the export failed. *)
Theorem export3_clears_or_keeps (sc : Screens) (w : World) :
  (sinkDelivers3 (snapshot w) = true -> removeItem_rejects w = false ->
     storage (withRender Variant3.handleExportLogs sc w).2 !! LOGS_KEY = None
     /\ snapshot (withRender Variant3.handleExportLogs sc w).2 = []
     /\ Home.logs (home (withRender Variant3.handleExportLogs sc w).1.2) = [])
  /\ (sinkDelivers3 (snapshot w) = false \/ removeItem_rejects w = true ->
     withRender Variant3.handleExportLogs sc w
     = (Ok tt, sc,
        alerted "Export Error" "Failed to export logs."
          (errorLogged "Error exporting logs:" (afterLoad w)))
     /\ storage (afterLoad w) = storage w).
Proof.
  destruct (afterLoad_same w) as (Hst & _).
  split.
  - intros Hsink Hrm. eapply withRender_cleared.
    + rewrite handleExportLogs3_run, Hsink, Hrm. reflexivity.
    + simpl. by rewrite Hst.
  - intros Hfail. split; [|done]. unfold withRender.
    rewrite handleExportLogs3_run.
    replace (sinkDelivers3 (snapshot w) && negb (removeItem_rejects w)) with false
      by (destruct Hfail as [-> | ->]; [done|by rewrite andb_false_r]).
    unfold rerenderHome. rewrite Bool.eqb_reflx. unfold ret. by destruct sc.
Qed.

End Export3.

Lemma export3_clears_or_keeps_witness :
  (sinkDelivers3 (H := Sample.phone)
     (snapshot (H := Sample.phone) (Sample.world Sample.stored)) = true
   /\ removeItem_rejects (Sample.world Sample.stored) = false)
  /\ Home.logs (home (withRender (H := Sample.phone)
                        (Variant3.handleExportLogs (H := Sample.phone))
                        Sample.screens (Sample.world Sample.stored)).1.2) = [].
Proof.
  split; [split; reflexivity|].
  exact (proj2 (proj2 (proj1
    (export3_clears_or_keeps (H := Sample.phone) Sample.screens
       (Sample.world Sample.stored)) eq_refl eq_refl))).
Defined.

(** ** Start and settings *)

Section SettingsExtras.
Context `{Runtime}.

Lemma loadTheme_run (s : App.state) (w : World) :
  App.loadTheme s w =
    if getItem_rejects w
    then (Ok tt, s, errorLogged "Failed to load theme" w)
    else match storage w !! THEME_KEY with
         | None => (Ok tt, s, w)
         | Some t => (Ok tt, if JS.truthy t then App.setTheme t s else s, w)
         end.
Proof.
  unfold App.loadTheme. run.
  destruct (getItem_rejects w); [done|].
  destruct (storage w !! THEME_KEY) as [t|]; [|done].
  by destruct (JS.truthy t).
Qed.

(** X12: the start of the application always returns: whatever the storage
    holds and whether it answers or not, loading the configuration and the
    theme throws nothing, writes nothing to storage, shows no alert, and
    leaves [reloadFlag] and the current screen alone; with nothing stored
    on a working device it changes nothing at all. *)
Theorem startup_only_reads (s : App.state) (w : World) :
  (App.startup s w).1.1 = Ok tt
  /\ storage (App.startup s w).2 = storage w
  /\ alerts (App.startup s w).2 = alerts w
  /\ App.reloadFlag (App.startup s w).1.2 = App.reloadFlag s
  /\ App.route (App.startup s w).1.2 = App.route s
  /\ (getItem_rejects w = false -> storage w !! CONFIG_KEY = None ->
      storage w !! THEME_KEY = None -> App.startup s w = (Ok tt, s, w)).
Proof.
  unfold App.startup, bind. rewrite loadConfig_run.
  destruct (getItem_rejects w) eqn:Hg.
  - rewrite loadTheme_run. simpl. by rewrite Hg.
  - destruct (storage w !! CONFIG_KEY) as [text|] eqn:Hc.
    + destruct (JS.truthy text); [destruct (yaml_load text)|];
        rewrite loadTheme_run; simpl; rewrite ?Hg; simpl;
        destruct (storage w !! THEME_KEY) as [t|]; try done;
        by destruct (JS.truthy t).
    + rewrite loadTheme_run, Hg.
      destruct (storage w !! THEME_KEY) as [t|]; [|done].
      by destruct (JS.truthy t).
Qed.

(** X13: what 'Save Settings' saved is what the next start loads: when the
    text is not empty and parses, the theme chosen is not empty and the
    storage works, the application started afresh has the parsed
    configuration and the chosen theme. *)
Theorem saved_settings_are_loaded_at_start (yamlText selectedTheme : JS.str)
    (v : jsval) (s : App.state) (w : World) :
  yaml_load yamlText = Some v ->
  yamlText <> [] ->
  selectedTheme <> [] ->
  setItem_rejects w = false ->
  getItem_rejects w = false ->
  (saveThenRestart yamlText selectedTheme s w).1.1 = Ok tt
  /\ (saveThenRestart yamlText selectedTheme s w).1.2
     = App.mk v selectedTheme false HomeRoute.
Proof.
  intros Hy Ht Hth Hw Hg. unfold saveThenRestart.
  destruct (saveSettings_parsed yamlText selectedTheme v s w Hy) as [_ Hrun].
  rewrite (Hrun Hw). simpl.
  unfold App.startup, bind. rewrite loadConfig_run. simpl. rewrite Hg.
  rewrite lookup_insert_ne by done. rewrite lookup_insert_eq.
  destruct yamlText; [done|]. simpl. rewrite Hy.
  rewrite loadTheme_run. simpl. rewrite Hg, lookup_insert_eq.
  by destruct selectedTheme.
Qed.

(** X14: an empty text is the exception: when the parser accepts it, 'Save
    Settings' makes its value the configuration in use and stores the empty
    text, but the next start does not hand an empty text to the parser and
    comes up with the built-in default. *)
Theorem empty_settings_not_loaded_at_start (selectedTheme : JS.str)
    (v : jsval) (s : App.state) (w : World) :
  yaml_load [] = Some v ->
  setItem_rejects w = false ->
  getItem_rejects w = false ->
  App.config (Settings.saveSettings [] selectedTheme s w).1.2 = v
  /\ storage (Settings.saveSettings [] selectedTheme s w).2 !! CONFIG_KEY = Some []
  /\ App.config (saveThenRestart [] selectedTheme s w).1.2 = DEFAULT_CONFIG.
Proof.
  intros Hy Hw Hg. unfold saveThenRestart.
  destruct (saveSettings_parsed [] selectedTheme v s w Hy) as [Hc Hrun].
  rewrite (Hrun Hw). simpl. repeat split.
  - rewrite lookup_insert_ne by done. apply lookup_insert_eq.
  - unfold App.startup, bind. rewrite loadConfig_run. simpl. rewrite Hg.
    rewrite lookup_insert_ne by done. rewrite lookup_insert_eq. simpl.
    rewrite loadTheme_run. simpl. rewrite Hg, lookup_insert_eq.
    by destruct (JS.truthy selectedTheme).
Qed.

(** X15: when the text parses but the storage refuses the write, 'Save
    Settings' has already made the parsed value the configuration in use;
    nothing is stored, the theme, [reloadFlag] and the current screen stay,
    and the alert blames the YAML. *)
Theorem saveSettings_refused_write (yamlText selectedTheme : JS.str)
    (v : jsval) (s : App.state) (w : World) :
  yaml_load yamlText = Some v ->
  setItem_rejects w = true ->
  Settings.saveSettings yamlText selectedTheme s w
  = (Ok tt, App.setConfig v s,
     alerted "Error" "Invalid YAML configuration." w).
Proof.
  intros Hy Hw. unfold Settings.saveSettings. run. rewrite Hy. simpl.
  by rewrite Hw.
Qed.

End SettingsExtras.

Lemma saved_settings_are_loaded_at_start_witness :
  (yaml_load (Runtime := Sample.phone) Sample.gymText = Some Sample.gymConfig
   /\ Sample.gymText <> []
   /\ JS.lit "dark" <> []
   /\ setItem_rejects (Sample.world ∅) = false
   /\ getItem_rejects (Sample.world ∅) = false)
  /\ (saveThenRestart (H := Sample.phone) Sample.gymText (JS.lit "dark")
        App.initial (Sample.world ∅)).1.2
     = App.mk Sample.gymConfig (JS.lit "dark") false HomeRoute.
Proof.
  assert (Ht : Sample.gymText <> []) by discriminate.
  assert (Hth : JS.lit "dark" <> []) by discriminate.
  split; [split; [reflexivity|split; [exact Ht|split; [exact Hth|split; reflexivity]]]|].
  exact (proj2 (saved_settings_are_loaded_at_start (H := Sample.phone)
                  Sample.gymText (JS.lit "dark") Sample.gymConfig App.initial
                  (Sample.world ∅) eq_refl Ht Hth eq_refl eq_refl)).
Defined.

Lemma empty_settings_not_loaded_at_start_witness :
  (yaml_load (Runtime := Sample2.runtime ios [] true) [] = Some JUndefined
   /\ setItem_rejects (Sample.world ∅) = false
   /\ getItem_rejects (Sample.world ∅) = false)
  /\ App.config (Settings.saveSettings (H := Sample2.runtime ios [] true)
                   [] (JS.lit "dark") App.initial (Sample.world ∅)).1.2
     = JUndefined
  /\ App.config (saveThenRestart (H := Sample2.runtime ios [] true)
                   [] (JS.lit "dark") App.initial (Sample.world ∅)).1.2
     = DEFAULT_CONFIG.
Proof.
  split; [split; [reflexivity|split; reflexivity]|].
  destruct (empty_settings_not_loaded_at_start (H := Sample2.runtime ios [] true)
              (JS.lit "dark") JUndefined App.initial (Sample.world ∅)
              eq_refl eq_refl eq_refl) as (Hc & _ & Hd).
  split; [exact Hc|exact Hd].
Defined.

Lemma saveSettings_refused_write_witness :
  (yaml_load (Runtime := Sample.phone) Sample.gymText = Some Sample.gymConfig
   /\ setItem_rejects (Sample.fullDisk ∅) = true)
  /\ App.config (Settings.saveSettings (H := Sample.phone) Sample.gymText
                   (JS.lit "dark") App.initial (Sample.fullDisk ∅)).1.2
     = Sample.gymConfig.
Proof.
  split; [split; reflexivity|].
  rewrite (saveSettings_refused_write (H := Sample.phone) Sample.gymText
             (JS.lit "dark") Sample.gymConfig App.initial (Sample.fullDisk ∅)
             eq_refl eq_refl).
  reflexivity.
Defined.

(** ** The list of logs and its editor *)

Section TextFacts.

Lemma split_head (sep : N) (a b : JS.str) :
  Forall (fun x => x <> sep) a ->
  JS.split sep (a ++ sep :: b) = a :: JS.split sep b.
Proof.
  induction 1 as [|x a Hx _ IH]; simpl.
  - by rewrite N.eqb_refl.
  - destruct (N.eqb_spec x sep); [done|]. by rewrite IH.
Qed.

Lemma split_none (sep : N) (a : JS.str) :
  Forall (fun x => x <> sep) a -> JS.split sep a = [a].
Proof.
  induction 1 as [|x a Hx _ IH]; simpl; [done|].
  destruct (N.eqb_spec x sep); [done|]. by rewrite IH.
Qed.

Lemma split_pieces (sep : N) (s : JS.str) :
  Forall (Forall (fun x => x <> sep)) (JS.split sep s).
Proof.
  induction s as [|c s IH]; simpl; [by repeat constructor|].
  destruct (N.eqb_spec c sep) as [->|Hc].
  - by constructor.
  - destruct (JS.split sep s) as [|piece pieces].
    + by repeat constructor.
    + inversion IH; subst. by repeat constructor.
Qed.

Lemma replaceFirst_head (c d : N) (a b : JS.str) :
  Forall (fun x => x <> c) a ->
  LogsList.replaceFirst c d (a ++ c :: b) = a ++ d :: b.
Proof.
  induction 1 as [|x a Hx _ IH]; simpl.
  - by rewrite N.eqb_refl.
  - destruct (N.eqb_spec x c); [done|]. by rewrite IH.
Qed.

Lemma replaceFirst_none (c d : N) (a : JS.str) :
  Forall (fun x => x <> c) a -> LogsList.replaceFirst c d a = a.
Proof.
  induction 1 as [|x a Hx _ IH]; simpl; [done|].
  destruct (N.eqb_spec x c); [done|]. by rewrite IH.
Qed.

Lemma replaceFirst_Forall (P : N -> Prop) (c d : N) (a : JS.str) :
  P d -> Forall P a -> Forall P (LogsList.replaceFirst c d a).
Proof.
  intros Hd. induction 1 as [|x a Hx Ha IH]; simpl; [constructor|].
  destruct (x =? c)%N; by constructor.
Qed.

Lemma trimStart_Forall (P : N -> Prop) (s : JS.str) :
  Forall P s -> Forall P (JS.trimStart s).
Proof.
  induction 1 as [|x s Hx Hs IH]; simpl; [constructor|].
  destruct (JS.isWhiteSpace x); [done|by constructor].
Qed.

Lemma trim_Forall (P : N -> Prop) (s : JS.str) :
  Forall P s -> Forall P (JS.trim s).
Proof.
  intros Hs. unfold JS.trim, JS.trimEnd.
  apply Forall_rev, trimStart_Forall, Forall_rev. by apply trimStart_Forall.
Qed.

(** X16: a row of the list of the first and second variant shows a
    timestamp of the form date, [T], time, [.], rest as the date, a blank
    and the time: the fraction of the second and what follows are left
    out; and whatever the stored timestamp is, what is shown has no dot. *)
Theorem shownTimestamp_date_and_time (date time rest : JS.str) :
  Forall (fun x => x <> LogsList.letterT) date ->
  Forall (fun x => x <> LogsList.dot) date ->
  Forall (fun x => x <> LogsList.dot) time ->
  LogsList.shownTimestamp (date ++ LogsList.letterT :: time ++ LogsList.dot :: rest)
    = date ++ LogsList.space :: time
  /\ (forall stored, Forall (fun x => x <> LogsList.dot) (LogsList.shownTimestamp stored)).
Proof.
  intros HT Hdate Htime. split.
  - unfold LogsList.shownTimestamp, LogsList.beforeDot.
    replace (date ++ LogsList.letterT :: time ++ LogsList.dot :: rest)
      with ((date ++ LogsList.letterT :: time) ++ LogsList.dot :: rest)
      by (by rewrite <- app_assoc).
    rewrite split_head.
    + by apply replaceFirst_head.
    + apply Forall_app. split; [done|]. by constructor.
  - intros stored. unfold LogsList.shownTimestamp, LogsList.beforeDot.
    apply replaceFirst_Forall; [done|].
    pose proof (split_pieces LogsList.dot stored) as Hp.
    destruct (JS.split LogsList.dot stored); [constructor|]. by inversion Hp.
Qed.

End TextFacts.

Lemma shownTimestamp_date_and_time_witness :
  (Forall (fun x => x <> LogsList.letterT) (JS.lit "2025-04-09")
   /\ Forall (fun x => x <> LogsList.dot) (JS.lit "2025-04-09")
   /\ Forall (fun x => x <> LogsList.dot) (JS.lit "15:00:00"))
  /\ LogsList.shownTimestamp (Sample.isoString 1744210800000)
     = JS.lit "2025-04-09 15:00:00".
Proof.
  assert (H1 : Forall (fun x => x <> LogsList.letterT) (JS.lit "2025-04-09"))
    by (repeat constructor; discriminate).
  assert (H2 : Forall (fun x => x <> LogsList.dot) (JS.lit "2025-04-09"))
    by (repeat constructor; discriminate).
  assert (H3 : Forall (fun x => x <> LogsList.dot) (JS.lit "15:00:00"))
    by (repeat constructor; discriminate).
  split; [split; [exact H1|split; [exact H2|exact H3]]|].
  exact (proj1 (shownTimestamp_date_and_time (JS.lit "2025-04-09")
                  (JS.lit "15:00:00") (JS.lit "000Z") H1 H2 H3)).
Defined.

Section EditorFacts.

Lemma split_join (cs : list JS.str) :
  Forall (Forall (fun x => x <> JS.comma)) cs ->
  JS.split JS.comma (JS.join (JS.lit ", ") cs)
  = match cs with
    | [] => [[]]
    | c :: rest => c :: List.map (cons LogsList.space) rest
    end.
Proof.
  induction 1 as [|c cs Hc Hcs IH]; [done|].
  destruct cs as [|c' rest].
  - simpl. by apply split_none.
  - change (JS.join (JS.lit ", ") (c :: c' :: rest))
      with (c ++ JS.comma :: LogsList.space :: JS.join (JS.lit ", ") (c' :: rest)).
    rewrite split_head by done.
    change (JS.split JS.comma (LogsList.space :: JS.join (JS.lit ", ") (c' :: rest)))
      with (match JS.split JS.comma (JS.join (JS.lit ", ") (c' :: rest)) with
            | piece :: pieces => (LogsList.space :: piece) :: pieces
            | [] => [[LogsList.space]]
            end).
    by rewrite IH.
Qed.

Lemma trim_after_blank (c : JS.str) : JS.trim (LogsList.space :: c) = JS.trim c.
Proof. reflexivity. Qed.

Lemma splitComments_join (cs : list JS.str) :
  Forall cleanComment cs ->
  Logs.splitComments (JS.join (JS.lit ", ") cs) = cs.
Proof.
  intros Hcs. unfold Logs.splitComments. rewrite split_join.
  - destruct Hcs as [|c rest (Hne & Htrim & _) Hrest]; [done|].
    simpl. rewrite Htrim. destruct c; [done|]. simpl. f_equal.
    induction Hrest as [|c' rest (Hne' & Htrim' & _) _ IH]; [done|].
    simpl. rewrite trim_after_blank, Htrim'. destruct c'; [done|].
    simpl. by rewrite IH.
  - eapply Forall_impl; [exact Hcs|]. by intros c (_ & _ & Hc).
Qed.

Lemma splitComments_cleanComment (raw : JS.str) :
  Forall cleanComment (Logs.splitComments raw).
Proof.
  unfold Logs.splitComments.
  pose proof (split_pieces JS.comma raw) as Hp.
  induction Hp as [|piece pieces Hpiece _ IH]; simpl; [constructor|].
  destruct (JS.trim piece) eqn:E; simpl; [done|].
  constructor; [|done]. rewrite <- E. repeat split.
  - by rewrite E.
  - apply trim_idem.
  - by apply trim_Forall.
Qed.

End EditorFacts.

Section EditorExtras.
Context `{Runtime}.

Lemma displayed_lookup (s : Logs.state) (index : nat) (item : LogRecord) :
  Logs.displayed s !! index = Some item <->
  Logs.logs s !! (List.length (Logs.logs s) - Datatypes.S index)%nat = Some item
  /\ (index < List.length (Logs.logs s))%nat.
Proof.
  unfold Logs.displayed. rewrite rev_alt.
  change (rev_append (Logs.logs s) []) with (reverse (Logs.logs s)).
  apply reverse_lookup_Some.
Qed.

Lemma stored_index (s : Logs.state) (index : nat) :
  (index < List.length (Logs.logs s))%nat ->
  Z.to_nat (Z.of_nat (List.length (Logs.logs s)) - 1 - Z.of_nat index)
  = (List.length (Logs.logs s) - Datatypes.S index)%nat
  /\ 0 <= Z.of_nat (List.length (Logs.logs s)) - 1 - Z.of_nat index.
Proof. lia. Qed.

(** The press on a row and the save that follows, for any typing between. *)
Lemma press_then_save (typing : Logs.state -> Logs.state) (s : Logs.state)
    (w : World) (index : nat) (item : LogRecord) :
  Logs.displayed s !! index = Some item ->
  (forall t, Logs.logs (typing t) = Logs.logs t
             /\ Logs.currentEditingIndex (typing t) = Logs.currentEditingIndex t) ->
  let opened := (Logs.pressRow index s w).1.2 in
  let edited :=
    mkLog (Logs.editedActivity (typing opened)) (timestamp item)
          (Some (Logs.splitComments (Logs.editedComments (typing opened)))) in
  (Logs.pressRow index >> modify typing >> Logs.saveEditedLog) s w
  = (Ok tt,
     Logs.mk (<[(List.length (Logs.logs s) - Datatypes.S index)%nat := edited]>
                (Logs.logs s))
             false (Logs.currentEditingIndex (typing opened))
             (Logs.editedActivity (typing opened))
             (Logs.editedComments (typing opened)),
     if setItem_rejects w then errorLogged "Error saving logs:" w
     else with_storage
            (<[LOGS_KEY := JSON_stringify
                 (<[(List.length (Logs.logs s) - Datatypes.S index)%nat := edited]>
                    (Logs.logs s))]> (storage w)) w).
Proof.
  intros Hrow Htyping. cbv zeta.
  apply displayed_lookup in Hrow as Hstored. destruct Hstored as [Hstored Hlt].
  destruct (stored_index s index Hlt) as [Hnat Hpos].
  assert (Hopen : Logs.pressRow index s w
                  = (Ok tt,
                     Logs.mk (Logs.logs s) true
                       (Some (Z.of_nat (List.length (Logs.logs s)) - 1 - Z.of_nat index))
                       (activity item)
                       match comments item with
                       | Some cs => JS.join (JS.lit ", ") cs
                       | None => []
                       end, w)).
  { unfold Logs.pressRow, bind at 1, get. simpl. rewrite Hrow.
    unfold Logs.openEditModal. run. reflexivity. }
  unfold bind at 1. rewrite Hopen. simpl.
  unfold bind at 1, modify at 1. simpl.
  set (opened := Logs.mk _ _ _ _ _).
  destruct (Htyping opened) as [Hlogs Hidx]. simpl in Hlogs, Hidx.
  erewrite (saveEditedLog_run (typing opened) w _ item).
  - rewrite Hlogs, Hidx, Hnat. reflexivity.
  - exact Hidx.
  - rewrite Hlogs. unfold Logs.at_index.
    destruct (Z.ltb_spec (Z.of_nat (List.length (Logs.logs s)) - 1 - Z.of_nat index) 0);
      [lia|]. by rewrite Hnat.
Qed.

End EditorExtras.

Section EditorTheorems.
Context `{Runtime}.

Lemma pressAndSave_as_typing (index : nat) (s : Logs.state) (w : World) :
  pressAndSave index s w
  = (Logs.pressRow index >> modify (fun t => t) >> Logs.saveEditedLog) s w.
Proof.
  unfold pressAndSave, bind, modify.
  by destruct (Logs.pressRow index s w) as [[[] s'] w'].
Qed.

Lemma pressTypeSave_as_typing (index : nat) (a c : JS.str) (s : Logs.state)
    (w : World) :
  pressTypeSave index a c s w
  = (Logs.pressRow index
     >> modify (fun t => Logs.setEditedComments c (Logs.setEditedActivity a t))
     >> Logs.saveEditedLog) s w.
Proof.
  unfold pressTypeSave, bind, modify.
  by destruct (Logs.pressRow index s w) as [[[] s'] w'].
Qed.

Lemma pressAndSave_run (index : nat) (s : Logs.state) (w : World)
    (item : LogRecord) :
  Logs.displayed s !! index = Some item ->
  (pressAndSave index s w).1.1 = Ok tt
  /\ Logs.logs (pressAndSave index s w).1.2
     = <[(List.length (Logs.logs s) - Datatypes.S index)%nat :=
           mkLog (activity item) (timestamp item)
                 (Some (Logs.splitComments
                          match comments item with
                          | Some cs => JS.join (JS.lit ", ") cs
                          | None => []
                          end))]> (Logs.logs s).
Proof.
  intros Hrow. rewrite pressAndSave_as_typing.
  rewrite (press_then_save (fun t => t) s w index item Hrow) by done.
  split; [done|]. simpl.
  unfold Logs.pressRow, bind, get. simpl. rewrite Hrow.
  unfold Logs.openEditModal. run. reflexivity.
Qed.

Lemma pressAndSave_clean (index : nat) (s : Logs.state) (w : World)
    (item : LogRecord) (cs : list JS.str) :
  Logs.displayed s !! index = Some item ->
  comments item = Some cs ->
  Forall cleanComment cs ->
  Logs.logs (pressAndSave index s w).1.2 = Logs.logs s.
Proof.
  intros Hrow Hcs Hclean.
  destruct (pressAndSave_run index s w item Hrow) as [_ Hlogs].
  rewrite Hlogs, Hcs, splitComments_join by done.
  apply list_insert_id. apply displayed_lookup in Hrow as [Hstored _].
  rewrite Hstored. f_equal. destruct item. simpl in *. by subst.
Qed.

(** X17: in the second variant, a press on a row and 'Save' with nothing
    typed leaves the log as it was, when every comment of the entry is
    clean, that is not empty, without a blank at either end and without a
    comma: the text the editor shows for the comments splits back into
    them. *)
Theorem pressAndSave_keeps_clean_entry (index : nat) (s : Logs.state)
    (w : World) (item : LogRecord) (cs : list JS.str) :
  Logs.displayed s !! index = Some item ->
  comments item = Some cs ->
  Forall cleanComment cs ->
  (pressAndSave index s w).1.1 = Ok tt
  /\ Logs.logs (pressAndSave index s w).1.2 = Logs.logs s.
Proof.
  intros Hrow Hcs Hclean. split.
  - by destruct (pressAndSave_run index s w item Hrow).
  - by eapply pressAndSave_clean.
Qed.

(** X18: whatever the comments of the entry are, a second press and 'Save'
    on the same row changes nothing more: the comments that one save
    leaves are clean, so the editor gives them back. *)
Theorem pressAndSave_twice (index : nat) (s : Logs.state) (w : World)
    (item : LogRecord) :
  Logs.displayed s !! index = Some item ->
  ((pressAndSave index >> pressAndSave index) s w).1.1 = Ok tt
  /\ Logs.logs ((pressAndSave index >> pressAndSave index) s w).1.2
     = Logs.logs (pressAndSave index s w).1.2.
Proof.
  intros Hrow.
  destruct (pressAndSave_run index s w item Hrow) as [Hok Hlogs].
  unfold bind at 1 2.
  destruct (pressAndSave index s w) as [[r s1] w1] eqn:Hrun. simpl in *. subst r.
  apply displayed_lookup in Hrow as [Hstored Hlt].
  assert (Hrow1 : Logs.displayed s1 !! index
                  = Some (mkLog (activity item) (timestamp item)
                            (Some (Logs.splitComments
                                     match comments item with
                                     | Some cs => JS.join (JS.lit ", ") cs
                                     | None => []
                                     end)))).
  { apply displayed_lookup. rewrite Hlogs, length_insert. split; [|done].
    apply list_lookup_insert_eq. lia. }
  split.
  - by destruct (pressAndSave_run index s1 w1 _ Hrow1).
  - eapply pressAndSave_clean; [exact Hrow1|reflexivity|].
    apply splitComments_cleanComment.
Qed.

(** X19: in the second variant, a press on a row, both fields typed over
    and 'Save': the call returns, the editor closes, the row pressed shows
    the activity as typed, the timestamp it had and the comments split from
    the text typed, and every other row shows what it showed. *)
Theorem pressTypeSave_changes_the_row_pressed (index : nat) (a c : JS.str)
    (s : Logs.state) (w : World) (item : LogRecord) :
  Logs.displayed s !! index = Some item ->
  let after := (pressTypeSave index a c s w).1.2 in
  (pressTypeSave index a c s w).1.1 = Ok tt
  /\ Logs.editModalVisible after = false
  /\ Logs.displayed after !! index
     = Some (mkLog a (timestamp item) (Some (Logs.splitComments c)))
  /\ (forall j, j <> index -> Logs.displayed after !! j = Logs.displayed s !! j).
Proof.
  intros Hrow after. subst after. rewrite pressTypeSave_as_typing.
  rewrite (press_then_save
             (fun t => Logs.setEditedComments c (Logs.setEditedActivity a t))
             s w index item Hrow) by done.
  simpl. apply displayed_lookup in Hrow as [Hstored Hlt].
  repeat split.
  - apply displayed_lookup. simpl. rewrite length_insert. split; [|done].
    apply list_lookup_insert_eq. lia.
  - intros j Hj. apply option_eq. intros x.
    rewrite !displayed_lookup. simpl. rewrite length_insert.
    split; intros [Hx Hjlt]; (split; [|done]).
    + rewrite list_lookup_insert_ne in Hx by lia. done.
    + rewrite list_lookup_insert_ne by lia. done.
Qed.

(** X20: the three variants read the same log and differ in the order of
    the list: the first keeps the log reversed in its state and the second
    reverses it when it draws, so that both show the entry recorded last in
    the first row, while the third shows the log in the order stored. *)
Theorem logs_list_order (rows : list LogRecord) (s : Logs.state) (w : World) :
  (LogsList.focus1 rows w).1.2 = rev (snapshot w)
  /\ Logs.displayed (Logs.focus s w).1.2 = rev (snapshot w)
  /\ (LogsList.focus3 rows w).1.2 = snapshot w
  /\ rev (snapshot w) !! 0%nat = last (snapshot w)
  /\ List.length (rev (snapshot w)) = List.length (snapshot w).
Proof.
  unfold LogsList.focus1, LogsList.focus3, Logs.focus, bind.
  rewrite !loadLogsFromStorage_snapshot. simpl. repeat split.
  - rewrite rev_alt. change (rev_append (snapshot w) []) with (reverse (snapshot w)).
    rewrite <- head_lookup. apply head_reverse.
  - apply List.length_rev.
Qed.

End EditorTheorems.

Lemma pressAndSave_keeps_clean_entry_witness :
  (Logs.displayed (Logs.setLogs Sample.threeLogs Logs.initial) !! 1%nat
     = Some Sample2.tea
   /\ comments Sample2.tea = Some [JS.lit "tea"]
   /\ Forall cleanComment [JS.lit "tea"])
  /\ Logs.logs (pressAndSave (H := Sample.phone) 1
                  (Logs.setLogs Sample.threeLogs Logs.initial)
                  (Sample.world ∅)).1.2
     = Sample.threeLogs.
Proof.
  assert (Hclean : Forall cleanComment [JS.lit "tea"]).
  { repeat constructor; discriminate. }
  split; [split; [reflexivity|split; [reflexivity|exact Hclean]]|].
  exact (proj2 (pressAndSave_keeps_clean_entry (H := Sample.phone) 1
                  (Logs.setLogs Sample.threeLogs Logs.initial) (Sample.world ∅)
                  Sample2.tea [JS.lit "tea"] eq_refl eq_refl Hclean)).
Defined.

Lemma pressAndSave_twice_witness :
  Logs.displayed (Logs.setLogs Sample.threeLogs Logs.initial) !! 1%nat
    = Some Sample2.tea
  /\ Logs.logs ((pressAndSave (H := Sample.phone) 1
                 >> pressAndSave (H := Sample.phone) 1)
                  (Logs.setLogs Sample.threeLogs Logs.initial)
                  (Sample.world ∅)).1.2
     = Sample.threeLogs.
Proof.
  split; [reflexivity|].
  rewrite (proj2 (pressAndSave_twice (H := Sample.phone) 1
                    (Logs.setLogs Sample.threeLogs Logs.initial) (Sample.world ∅)
                    Sample2.tea eq_refl)).
  reflexivity.
Defined.

Lemma pressTypeSave_changes_the_row_pressed_witness :
  Logs.displayed (Logs.setLogs Sample.threeLogs Logs.initial) !! 0%nat
    = Some (Sample.work 120000)
  /\ Logs.displayed (pressTypeSave (H := Sample.phone) 0 (JS.lit "Gym")
                       (JS.lit "warmup, cardio, stretch")
                       (Logs.setLogs Sample.threeLogs Logs.initial)
                       (Sample.world ∅)).1.2 !! 0%nat
     = Some (mkLog (JS.lit "Gym") (Sample.isoString 120000)
                   (Some [JS.lit "warmup"; JS.lit "cardio"; JS.lit "stretch"])).
Proof.
  split; [reflexivity|].
  exact (proj1 (proj2 (proj2
    (pressTypeSave_changes_the_row_pressed (H := Sample.phone) 0 (JS.lit "Gym")
       (JS.lit "warmup, cardio, stretch")
       (Logs.setLogs Sample.threeLogs Logs.initial) (Sample.world ∅)
       (Sample.work 120000) eq_refl)))).
Defined.

Section LastExtras.
Context `{Runtime}.

Lemma map_insert_same {A} (f : LogRecord -> A) (i : nat) (r' : LogRecord)
    (l : list LogRecord) :
  (forall r, l !! i = Some r -> f r' = f r) ->
  List.map f (<[i := r']> l) = List.map f l.
Proof.
  revert i. induction l as [|r l IH]; intros [|i] Hr; simpl; try done.
  - by rewrite (Hr r).
  - f_equal. apply IH. intros r0 Hr0. by apply Hr.
Qed.

(** X21: in the second variant, a press on a row and 'Save' with nothing
    typed can change comments only: the log keeps its length and every
    entry its activity and its timestamp. *)
Theorem pressAndSave_changes_comments_only (index : nat) (s : Logs.state)
    (w : World) (item : LogRecord) :
  Logs.displayed s !! index = Some item ->
  List.length (Logs.logs (pressAndSave index s w).1.2) = List.length (Logs.logs s)
  /\ List.map activity (Logs.logs (pressAndSave index s w).1.2)
     = List.map activity (Logs.logs s)
  /\ List.map timestamp (Logs.logs (pressAndSave index s w).1.2)
     = List.map timestamp (Logs.logs s).
Proof.
  intros Hrow.
  destruct (pressAndSave_run index s w item Hrow) as [_ ->].
  apply displayed_lookup in Hrow as [Hstored _].
  repeat split.
  - apply length_insert.
  - apply map_insert_same. intros r Hr. simpl. congruence.
  - apply map_insert_same. intros r Hr. simpl. congruence.
Qed.

(** X22: an activity recorded and a comment sent right after: the comment
    is the only comment of the entry just recorded, which comes after the
    entries that were there; this holds whether the storage takes the
    writes or not. *)
Theorem comment_goes_to_entry_just_recorded (title : string) (activity : JS.str)
    (now : Z) (text : JS.str) (s : Home.state) (w : World) :
  (recordThenComment title activity now text s w).1.1 = Ok tt
  /\ Home.logs (recordThenComment title activity now text s w).1.2
     = Home.logs s ++ [mkLog activity (toISOString now) (Some [text])].
Proof.
  assert (Hrun : exists w',
             recordThenComment title activity now text s w
             = (Ok tt,
                Home.mk (Home.logs s ++ [mkLog activity (toISOString now) (Some [text])])
                        false [], w')).
  { unfold recordThenComment, bind at 1. rewrite recordActivity_run.
    unfold bind at 1, modify at 1. simpl.
    rewrite addCommentWith_nonempty by (simpl; by destruct (Home.logs s)).
    unfold Home.setCommentText, Home.setLogs.
    cbn [Home.logs Home.commentText]. rewrite alter_last.
    eexists. reflexivity. }
  destruct Hrun as [w' ->]. done.
Qed.

End LastExtras.

Lemma pressAndSave_changes_comments_only_witness :
  Logs.displayed (Logs.setLogs Sample.threeLogs Logs.initial) !! 1%nat
    = Some Sample2.tea
  /\ List.map activity
       (Logs.logs (pressAndSave (H := Sample.phone) 1
                     (Logs.setLogs Sample.threeLogs Logs.initial)
                     (Sample.world ∅)).1.2)
     = [JS.lit "Work"; JS.lit "Break"; JS.lit "Work"].
Proof.
  split; [reflexivity|].
  rewrite (proj1 (proj2 (pressAndSave_changes_comments_only (H := Sample.phone) 1
                           (Logs.setLogs Sample.threeLogs Logs.initial)
                           (Sample.world ∅) Sample2.tea eq_refl))).
  reflexivity.
Defined.

Lemma startup_only_reads_witness :
  (getItem_rejects (Sample.world ∅) = false
   /\ storage (Sample.world ∅) !! CONFIG_KEY = None
   /\ storage (Sample.world ∅) !! THEME_KEY = None)
  /\ App.startup (H := Sample.phone) App.initial (Sample.world ∅)
     = (Ok tt, App.initial, Sample.world ∅).
Proof.
  split; [split; [reflexivity|split; reflexivity]|].
  exact (proj2 (proj2 (proj2 (proj2 (proj2
    (startup_only_reads (H := Sample.phone) App.initial (Sample.world ∅))))))
    eq_refl eq_refl eq_refl).
Defined.
